(** * Federate-side RTI coordination (lib/C/federate.c)

    A shallow embedding of [federate.c]: the two message senders, the
    bounded-retry connection loop, the start-time handshake and the listener
    thread with its two message handlers, together with the properties of the
    wire format and of the delivery path that the design document states. *)

From Stdlib Require Import ZArith List String Bool Lia.
Import ListNotations.
Local Open Scope Z_scope.

(** ** C integer types *)

Module CInt.

(** Conversion to an unsigned type of [bits] bits. *)
Definition unsigned_wrap (bits : Z) (z : Z) : Z := z mod 2 ^ bits.

(** Conversion to a signed two's-complement type of [bits] bits. *)
Definition signed_wrap (bits : Z) (z : Z) : Z :=
  (z + 2 ^ (bits - 1)) mod 2 ^ bits - 2 ^ (bits - 1).

Definition to_uchar : Z -> Z := unsigned_wrap 8.
Definition to_ushort : Z -> Z := unsigned_wrap 16.
Definition to_uint : Z -> Z := unsigned_wrap 32.
Definition to_int : Z -> Z := signed_wrap 32.
Definition to_ll : Z -> Z := signed_wrap 64.

Definition INT_MAX : Z := 2 ^ 31 - 1.
Definition LLONG_MIN : Z := - 2 ^ 63.
Definition LLONG_MAX : Z := 2 ^ 63 - 1.

Definition is_uchar (z : Z) : Prop := 0 <= z < 256.
Definition is_ll (z : Z) : Prop := LLONG_MIN <= z <= LLONG_MAX.

End CInt.
Import CInt.

(** ** Byte order *)

Module ByteOrder.

(** The [n] low-order bytes of [v], least significant first. *)
Fixpoint le_bytes (n : nat) (v : Z) : list Z :=
  match n with
  | O => []
  | S k => v mod 256 :: le_bytes k (v / 256)
  end.

(** The number a byte string denotes, least significant byte first. *)
Fixpoint le_value (bs : list Z) : Z :=
  match bs with
  | [] => 0
  | b :: rest => b + 256 * le_value rest
  end.

End ByteOrder.
Import ByteOrder.

(** ** The process and its surroundings *)

(** What the federate does that is visible from outside the function. *)
Inductive event : Type :=
| ev_socket (fd : Z)
| ev_gethostbyname (hostname : string) (found : bool)
| ev_connect (fd : Z) (port : Z) (result : Z)
| ev_nanosleep (seconds : Z) (result : Z)
| ev_write (fd : Z) (bytes : list Z)
| ev_read (fd : Z) (bytes : list Z)
| ev_printf (format : string)
| ev_fprintf_stderr (format : string)
| ev_get_logical_time
| ev_mutex_lock
| ev_mutex_unlock
| ev_schedule_value (trigger : Z) (delay : Z) (value : list Z) (length : Z).

(** The globals the file reads and writes ([rti_socket], and [current_time]
    and [mutex] of the reactor runtime), the bytes the RTI has still to
    deliver, and the history so far: each event with the logical time at
    which it happened. *)
Record World : Type := mkWorld {
  rti_socket : Z;
  current_time : Z;
  mutex_locked : bool;
  inbox : list Z;
  trace : list (Z * event)
}.

(** The answers of the operating system and of the other thread, by the
    position of the call in the history; the host's byte order; and the
    generated table of actions. *)
Record Env : Type := mkEnv {
  host_big_endian : bool;
  __action_for_port : Z -> Z;
  sys_socket : nat -> Z;
  sys_gethostbyname : nat -> bool;
  sys_connect : nat -> Z;
  sys_nanosleep : nat -> Z;
  sys_write : nat -> Z -> Z;
  engine_advance : nat -> Z
}.

(** Why a call did not return. *)
Inductive halt : Type :=
| exit_status (code : Z)
| error_exit (msg : string)
| assertion_failure (expr : string)
| transport_failure
| deadlock.

Inductive outcome (A : Type) : Type :=
| Done (a : A) (w : World)
| Halt (h : halt) (w : World)
| OutOfFuel.
Arguments Done {A} a w.
Arguments Halt {A} h w.
Arguments OutOfFuel {A}.

Definition M (A : Type) : Type := World -> outcome A.

Definition ret {A} (a : A) : M A := fun w => Done a w.

Definition bind {A B} (m : M A) (k : A -> M B) : M B :=
  fun w =>
    match m w with
    | Done a w' => k a w'
    | Halt h w' => Halt h w'
    | OutOfFuel => OutOfFuel
    end.

Notation "x <- m ;; k" := (bind m (fun x => k))
  (at level 61, m at next level, right associativity).
Notation "m ;; k" := (bind m (fun _ => k))
  (at level 61, right associativity).

Definition stop {A} (h : halt) : M A := fun w => Halt h w.

(** [exit(code)] *)
Definition exit {A} (code : Z) : M A := stop (exit_status code).

(** Modelled from the spec: [error] of util.c, which is not in the sources.
    Every failure it reports is fatal (section 7), so it does not return. *)
Definition error {A} (msg : string) : M A := stop (error_exit msg).

(** [assert(cond)], with assertions compiled in. *)
Definition assert (cond : bool) (expr : string) : M unit :=
  if cond then ret tt else stop (assertion_failure expr).

Definition events (w : World) : list event := map snd (trace w).

(** The bytes handed to the connection, in order. *)
Fixpoint written (es : list event) : list Z :=
  match es with
  | [] => []
  | ev_write _ bytes :: rest => bytes ++ written rest
  | _ :: rest => written rest
  end.

Definition set_rti_socket (fd : Z) (w : World) : World :=
  mkWorld fd (current_time w) (mutex_locked w) (inbox w) (trace w).
Definition set_current_time (t : Z) (w : World) : World :=
  mkWorld (rti_socket w) t (mutex_locked w) (inbox w) (trace w).
Definition set_mutex_locked (b : bool) (w : World) : World :=
  mkWorld (rti_socket w) (current_time w) b (inbox w) (trace w).
Definition set_inbox (bs : list Z) (w : World) : World :=
  mkWorld (rti_socket w) (current_time w) (mutex_locked w) bs (trace w).
Definition record (e : event) (w : World) : World :=
  mkWorld (rti_socket w) (current_time w) (mutex_locked w) (inbox w)
          (trace w ++ [(current_time w, e)]).

(** ** A sample federate

    Concrete surroundings on which the properties below are exercised: a
    host of either byte order whose sockets open, whose RTI refuses every
    connection, whose every second sleep is interrupted, whose writes
    complete, and whose other thread moves the clock by 10 at each turn. *)

Definition sample_env (big_endian : bool) : Env :=
  mkEnv big_endian
        (fun port_id => 4096 + port_id)
        (fun _ => 3)
        (fun _ => true)
        (fun _ => -1)
        (fun i => if Nat.even i then 0 else -1)
        (fun _ n => Z.max 0 n)
        (fun _ => 10).

(** A federate connected on descriptor 3, at logical time [time], with
    [pending] still to arrive from the RTI. *)
Definition sample_world (time : Z) (pending : list Z) : World :=
  mkWorld 3 time false pending [].

(** The sample federate with an RTI that starts to accept connections at
    position [from] of the history. *)
Definition accepting_env (big_endian : bool) (from : nat) : Env :=
  mkEnv big_endian
        (fun port_id => 4096 + port_id)
        (fun _ => 3)
        (fun _ => true)
        (fun i => if (from <=? i)%nat then 0 else -1)
        (fun i => if Nat.even i then 0 else -1)
        (fun _ n => Z.max 0 n)
        (fun _ => 10).

(** The sample federate with sockets, name lookups and writes that answer
    as given, on a little-endian host. *)
Definition troubled_env (sockets : nat -> Z) (lookups : nat -> bool)
  (writes : nat -> Z -> Z) : Env :=
  mkEnv false
        (fun port_id => 4096 + port_id)
        sockets
        lookups
        (fun _ => -1)
        (fun _ => 0)
        writes
        (fun _ => 10).

Section Federate.

(** rti.h is not in the sources: its constants are parameters. *)
Variables MESSAGE TIMED_MESSAGE FED_ID TIMESTAMP : Z.
Variables CONNECT_NUM_RETRIES CONNECT_RETRY_INTERVAL : Z.

Variable env : Env.

(** *** Primitive steps *)

(** The thread that advances logical time does so only with the mutex:
    between two steps of this thread it moves the clock unless this
    thread holds the mutex. *)
Definition preempt (w : World) : World :=
  if mutex_locked w then w
  else set_current_time
         (current_time w + engine_advance env (List.length (trace w))) w.

Definition step (e : event) (w : World) : World := preempt (record e w).

Definition now (w : World) : nat := List.length (trace w).

Definition get_rti_socket : M Z := fun w => Done (rti_socket w) w.

Definition socket : M Z :=
  fun w => let fd := sys_socket env (now w) in Done fd (step (ev_socket fd) w).

Definition gethostbyname (hostname : string) : M bool :=
  fun w =>
    let found := sys_gethostbyname env (now w) in
    Done found (step (ev_gethostbyname hostname found) w).

Definition connect (fd port : Z) : M Z :=
  fun w =>
    let result := sys_connect env (now w) in
    Done result (step (ev_connect fd port result) w).

Definition nanosleep (seconds : Z) : M Z :=
  fun w =>
    let result := sys_nanosleep env (now w) in
    Done result (step (ev_nanosleep seconds result) w).

(** [write(fd, buf, count)]: the return value, and as many bytes on the
    connection as it says. *)
Definition write (fd : Z) (buf : list Z) (count : Z) : M Z :=
  fun w =>
    let result := sys_write env (now w) count in
    let sent := if result <? 0 then []
                else firstn (Z.to_nat (Z.min result count)) buf in
    Done result (step (ev_write fd sent) w).

Definition printf (format : string) : M unit :=
  fun w => Done tt (step (ev_printf format) w).

Definition fprintf_stderr (format : string) : M unit :=
  fun w => Done tt (step (ev_fprintf_stderr format) w).

Definition get_logical_time : M Z :=
  fun w => Done (current_time w) (step ev_get_logical_time w).

Definition pthread_mutex_lock : M unit :=
  fun w =>
    if mutex_locked w then Halt deadlock w
    else Done tt (step ev_mutex_lock (set_mutex_locked true w)).

Definition pthread_mutex_unlock : M unit :=
  fun w => Done tt (preempt (set_mutex_locked false (record ev_mutex_unlock w))).

Definition schedule_value (trigger delay : Z) (value : list Z) (length : Z)
  : M unit :=
  fun w => Done tt (step (ev_schedule_value trigger delay value length) w).

(** *** util.c *)

(** Modelled from the spec: [write_to_socket] of util.c, which is not in
    the sources. It drains the whole buffer to the connection or fails
    (section 1); a failure is a fatal transport failure (section 7). *)
Definition write_to_socket (fd : Z) (num_bytes : Z) (buffer : list Z) : M unit :=
  fun w =>
    if sys_write env (now w) num_bytes <? 0 then Halt transport_failure w
    else Done tt (step (ev_write fd (firstn (Z.to_nat num_bytes) buffer)) w).

(** Modelled from the spec: [read_from_socket] of util.c, which is not in
    the sources. It fills the whole buffer from the connection or fails
    (section 1); a failure is a fatal transport failure (section 7). *)
Definition read_from_socket (fd : Z) (num_bytes : Z) : M (list Z) :=
  fun w =>
    let n := Z.to_nat num_bytes in
    if (n <=? List.length (inbox w))%nat
    then Done (firstn n (inbox w))
              (step (ev_read fd (firstn n (inbox w)))
                    (set_inbox (skipn n (inbox w)) w))
    else Halt transport_failure w.

(** Modelled from the spec: [encode_ushort], [encode_int] and [encode_ll]
    of util.c, which are not in the sources. All multi-byte fields are
    little-endian (section 4.1). *)
Definition encode_ushort (data : Z) : list Z := le_bytes 2 data.
Definition encode_int (data : Z) : list Z := le_bytes 4 data.
Definition encode_ll (data : Z) : list Z := le_bytes 8 data.

(** Modelled from the spec: [extract_ll] of util.c, which is not in the
    sources: an i64, little-endian (section 4.1). *)
Definition extract_ll (bytes : list Z) : Z := to_ll (le_value (firstn 8 bytes)).

(** Modelled from the spec: [extract_header] of util.c, which is not in
    the sources: u16 port, u16 federate, u32 length, little-endian
    (section 4.1). *)
Definition extract_header (buffer : list Z) : Z * Z * Z :=
  (le_value (firstn 2 buffer),
   le_value (firstn 2 (skipn 2 buffer)),
   le_value (firstn 4 (skipn 4 buffer))).

(** The bytes of an integer object in the host's memory. *)
Definition native_bytes (n : nat) (v : Z) : list Z :=
  if host_big_endian env then rev (le_bytes n v) else le_bytes n v.

(** The unsigned number the host reads from the bytes of an object. *)
Definition native_value (bytes : list Z) : Z :=
  if host_big_endian env then le_value (rev bytes) else le_value bytes.

(** Modelled from the spec: [swap_bytes_if_big_endian_int] and
    [swap_bytes_if_big_endian_ll] of util.c, which are not in the
    sources: the bytes are swapped only if the host is big-endian
    (section 4.1). *)
Definition swap_bytes_if_big_endian_int (src : Z) : Z :=
  if host_big_endian env then to_int (le_value (rev (le_bytes 4 src))) else src.
Definition swap_bytes_if_big_endian_ll (src : Z) : Z :=
  if host_big_endian env then to_ll (le_value (rev (le_bytes 8 src))) else src.

(** *** federate.c *)

Definition ERROR_SENDING_HEADER : string :=
  "ERROR sending header information to federate via RTI".
Definition ERROR_SENDING_MESSAGE : string :=
  "ERROR sending message to federate via RTI".
Definition ERROR_UNRECOGNIZED_MESSAGE_TYPE : string :=
  "ERROR Received from RTI an unrecognized message type".

(** The nine bytes [send_via_rti] stores in its [unsigned char buffer[9]]:
    each assignment converts its right-hand side to [unsigned char]. *)
Definition send_via_rti_buffer (port federate length : Z) : list Z :=
  [ to_uchar MESSAGE;
    to_uchar (Z.land port 0xff);
    to_uchar (Z.land port 0xff00);
    to_uchar (Z.land federate 0xff);
    to_uchar (Z.land federate 0xff00);
    to_uchar (Z.land length 0xff);
    to_uchar (Z.land length 0xff00);
    to_uchar (Z.land length 0xff0000);
    to_uchar (Z.land length 0xff000000) ].

Definition send_via_rti (port federate length : Z) (message : list Z) : M unit :=
  assert (port <? 65536) "port < 65536" ;;
  assert (federate <? 65536) "federate < 65536" ;;
  let buffer := send_via_rti_buffer port federate length in
  fd <- get_rti_socket ;;
  write_to_socket fd 9 buffer ;;
  fd <- get_rti_socket ;;
  write_to_socket fd length message.

(** The seventeen bytes of [send_via_rti_timed]'s buffer, for the logical
    time it has read. *)
Definition send_via_rti_timed_buffer (port federate length time : Z) : list Z :=
  [to_uchar TIMED_MESSAGE]
    ++ encode_ushort port
    ++ encode_ushort federate
    ++ encode_int length
    ++ encode_ll time.

Definition send_via_rti_timed (port federate length : Z) (message : list Z)
  : M unit :=
  assert (port <? 65536) "port < 65536" ;;
  assert (federate <? 65536) "federate < 65536" ;;
  time <- get_logical_time ;;
  let buffer := send_via_rti_timed_buffer port federate length time in
  fd <- get_rti_socket ;;
  write_to_socket fd 17 buffer ;;
  fd <- get_rti_socket ;;
  write_to_socket fd length message.

(** The [while (result < 0)] loop of [connect_to_rti]; [count_retries] is
    an [int]. The interrupted sleep reaches the loop test through
    [continue], the completed one by falling off the body. *)
Fixpoint connect_to_rti_loop (fuel : nat) (hostname : string) (port : Z)
  (count_retries : Z) : M unit :=
  match fuel with
  | O => fun _ => OutOfFuel
  | S fuel' =>
      fd <- socket ;;
      (fun w => Done tt (set_rti_socket fd w)) ;;
      (if fd <? 0 then error "ERROR on federate creating socket to RTI"
       else ret tt) ;;
      server <- gethostbyname hostname ;;
      (if negb server
       then fprintf_stderr "ERROR, no such host for RTI.\n" ;; exit 1
       else ret tt) ;;
      fd <- get_rti_socket ;;
      result <- connect fd (to_ushort port) ;;
      if result <? 0 then
        let count_retries := to_int (count_retries + 1) in
        (if count_retries >? CONNECT_NUM_RETRIES
         then fprintf_stderr
                "Failed to connect to the RTI after %d retries. Giving up.\n" ;;
              exit 2
         else ret tt) ;;
        printf "Could not connect to RTI at %s, port %d. Will try again every %d seconds.\n" ;;
        interrupted <- nanosleep CONNECT_RETRY_INTERVAL ;;
        if negb (interrupted =? 0)
        then connect_to_rti_loop fuel' hostname port count_retries
        else connect_to_rti_loop fuel' hostname port count_retries
      else ret tt
  end.

Definition connect_to_rti (fuel : nat) (id : Z) (hostname : string) (port : Z)
  : M unit :=
  connect_to_rti_loop fuel hostname port 0 ;;
  printf "Federate: connected to RTI at %s, port %d.\n" ;;
  let message_marker := to_uchar FED_ID in
  fd <- get_rti_socket ;;
  bytes_written <- write fd [message_marker] 1 ;;
  (if bytes_written <? 0 then error "ERROR sending federate ID to RTI"
   else ret tt) ;;
  let message := swap_bytes_if_big_endian_int id in
  fd <- get_rti_socket ;;
  bytes_written <- write fd (native_bytes 4 message) 4 ;;
  if bytes_written <? 0 then error "ERROR sending federate ID to RTI"
  else ret tt.

Definition get_start_time_from_rti (my_physical_time : Z) : M Z :=
  let message_marker := to_uchar TIMESTAMP in
  fd <- get_rti_socket ;;
  bytes_written <- write fd [message_marker] 1 ;;
  (if bytes_written <? 0 then error "ERROR sending message ID to RTI"
   else ret tt) ;;
  let message := swap_bytes_if_big_endian_ll my_physical_time in
  fd <- get_rti_socket ;;
  bytes_written <- write fd (native_bytes 8 message) 8 ;;
  (if bytes_written <? 0 then error "ERROR sending message to RTI"
   else ret tt) ;;
  fd <- get_rti_socket ;;
  buffer <- read_from_socket fd 9 ;;
  (if negb (nth 0 buffer 0 =? TIMESTAMP)
   then fprintf_stderr
          "ERROR: Federate expected a TIMESTAMP message from the RTI. Got %u (see rti.h).\n" ;;
        exit 1
   else ret tt) ;;
  let timestamp :=
    swap_bytes_if_big_endian_ll (to_ll (native_value (firstn 8 (skipn 1 buffer)))) in
  printf "Federate: starting timestamp is: %lld\n" ;;
  ret timestamp.

Definition handle_message : M unit :=
  fd <- get_rti_socket ;;
  buffer <- read_from_socket fd 8 ;;
  let '(port_id, federate_id, length) := extract_header buffer in
  fd <- get_rti_socket ;;
  message_contents <- read_from_socket fd length ;;
  schedule_value (__action_for_port env port_id) 0 message_contents length.

Definition handle_timed_message : M unit :=
  fd <- get_rti_socket ;;
  buffer <- read_from_socket fd 8 ;;
  let '(port_id, federate_id, length) := extract_header buffer in
  fd <- get_rti_socket ;;
  buffer8 <- read_from_socket fd 8 ;;
  let timestamp := extract_ll buffer8 in
  fd <- get_rti_socket ;;
  message_contents <- read_from_socket fd length ;;
  pthread_mutex_lock ;;
  time <- get_logical_time ;;
  let delay := to_ll (timestamp - time) in
  schedule_value (__action_for_port env port_id) delay message_contents length ;;
  pthread_mutex_unlock.

(** The [while (1)] loop of the listener thread. *)
Fixpoint listen_to_rti (fuel : nat) : M unit :=
  match fuel with
  | O => fun _ => OutOfFuel
  | S fuel' =>
      fd <- get_rti_socket ;;
      buffer <- read_from_socket fd 1 ;;
      let tag := nth 0 buffer 0 in
      if tag =? MESSAGE then handle_message ;; listen_to_rti fuel'
      else if tag =? TIMED_MESSAGE then handle_timed_message ;; listen_to_rti fuel'
      else error ERROR_UNRECOGNIZED_MESSAGE_TYPE
  end.

(** *** Reading a history *)

(** The logical time after the other thread has had [k] turns, the mutex
    being free, from a history of [h] events and logical time [t]. *)
Fixpoint clock_after (k : nat) (h : nat) (t : Z) : Z :=
  match k with
  | O => t
  | S k' => clock_after k' (S h) (t + engine_advance env (S h))
  end.

(** Connection attempts and waits, the rest of a history left out. *)
Inductive activity : Type :=
| attempt
| wait (seconds : Z).

Fixpoint activities (es : list event) : list activity :=
  match es with
  | [] => []
  | ev_connect _ _ _ :: rest => attempt :: activities rest
  | ev_nanosleep seconds _ :: rest => wait seconds :: activities rest
  | _ :: rest => activities rest
  end.

(** The retry rounds that follow a first failed attempt. *)
Fixpoint retries (n : nat) (interval : Z) : list activity :=
  match n with
  | O => []
  | S n' => wait interval :: attempt :: retries n' interval
  end.

(** How often a history takes the mutex, and what it hands to the
    scheduler. *)
Fixpoint acquisitions (es : list event) : nat :=
  match es with
  | [] => 0
  | ev_mutex_lock :: rest => S (acquisitions rest)
  | _ :: rest => acquisitions rest
  end.

Fixpoint deliveries (es : list event) : list event :=
  match es with
  | [] => []
  | ev_schedule_value trigger delay value length :: rest =>
      ev_schedule_value trigger delay value length :: deliveries rest
  | _ :: rest => deliveries rest
  end.

(** What the scheduler is handed, the delays left out: the trigger, the
    value and its length. *)
Fixpoint receipts (es : list event) : list (Z * list Z * Z) :=
  match es with
  | [] => []
  | ev_schedule_value trigger _ value length :: rest =>
      (trigger, value, length) :: receipts rest
  | _ :: rest => receipts rest
  end.

(** A message as the listener takes it off the connection: the tag that
    [listen_to_rti] switches on, the eight header bytes, for a timed
    message the eight timestamp bytes, and the payload. *)
Inductive incoming : Type :=
| plain_in (hdr payload : list Z)
| timed_in (hdr tsb payload : list Z).

Definition incoming_bytes (f : incoming) : list Z :=
  match f with
  | plain_in hdr payload => MESSAGE :: hdr ++ payload
  | timed_in hdr tsb payload => TIMED_MESSAGE :: hdr ++ tsb ++ payload
  end.

(** The header is whole and gives the length of the payload. *)
Definition whole (f : incoming) : Prop :=
  match f with
  | plain_in hdr payload =>
      List.length hdr = 8%nat
      /\ snd (extract_header hdr) = Z.of_nat (List.length payload)
  | timed_in hdr tsb payload =>
      List.length hdr = 8%nat /\ List.length tsb = 8%nat
      /\ snd (extract_header hdr) = Z.of_nat (List.length payload)
  end.

Definition receipt_of (f : incoming) : Z * list Z * Z :=
  match f with
  | plain_in hdr payload | timed_in hdr _ payload =>
      (__action_for_port env (fst (fst (extract_header hdr))),
       payload, snd (extract_header hdr))
  end.

(** ** Facts about the integer types *)

Lemma to_uchar_id z : is_uchar z -> to_uchar z = z.
Proof. intros H. apply Z.mod_small. exact H. Qed.

Lemma to_uchar_range z : is_uchar (to_uchar z).
Proof. unfold is_uchar, to_uchar, unsigned_wrap. apply Z.mod_pos_bound. lia. Qed.

Lemma to_int_id z : - 2 ^ 31 <= z <= INT_MAX -> to_int z = z.
Proof.
  unfold to_int, signed_wrap, INT_MAX. intros H.
  change (2 ^ (32 - 1)) with 2147483648 in *.
  change (2 ^ 31) with 2147483648 in *.
  change (2 ^ 32) with 4294967296 in *.
  rewrite Z.mod_small; lia.
Qed.

Lemma to_ll_id z : is_ll z -> to_ll z = z.
Proof.
  unfold to_ll, signed_wrap, is_ll, LLONG_MIN, LLONG_MAX. intros H.
  change (2 ^ (64 - 1)) with 9223372036854775808 in *.
  change (2 ^ 63) with 9223372036854775808 in *.
  change (2 ^ 64) with 18446744073709551616 in *.
  rewrite Z.mod_small; lia.
Qed.

Lemma to_ll_range z : is_ll (to_ll z).
Proof.
  unfold to_ll, signed_wrap, is_ll, LLONG_MIN, LLONG_MAX.
  change (2 ^ (64 - 1)) with 9223372036854775808.
  change (2 ^ 63) with 9223372036854775808.
  change (2 ^ 64) with 18446744073709551616.
  pose proof (Z.mod_pos_bound (z + 9223372036854775808) 18446744073709551616).
  lia.
Qed.

(** A mask of whole bytes above the lowest one leaves nothing in an
    [unsigned char]: the pattern [x & 0xff00] stored without a shift. *)
Lemma high_mask_in_uchar x m : m mod 256 = 0 -> to_uchar (Z.land x m) = 0.
Proof.
  intros Hm. unfold to_uchar, unsigned_wrap.
  change (2 ^ 8) with (2 ^ 8). rewrite <- Z.land_ones by lia.
  rewrite <- Z.land_assoc. rewrite (Z.land_ones m 8) by lia.
  change (2 ^ 8) with 256. rewrite Hm. apply Z.land_0_r.
Qed.

Lemma low_mask_in_uchar x : to_uchar (Z.land x 0xff) = x mod 256.
Proof.
  unfold to_uchar, unsigned_wrap. change 0xff with (Z.ones 8).
  rewrite Z.land_ones by lia. change (2 ^ 8) with 256.
  apply Z.mod_mod. lia.
Qed.

(** ** Facts about byte order *)

Lemma le_bytes_length n v : List.length (le_bytes n v) = n.
Proof. revert v. induction n as [|n IH]; intros v; simpl; [reflexivity|]. now rewrite IH. Qed.

Lemma le_bytes_uchar n v : Forall is_uchar (le_bytes n v).
Proof.
  revert v. induction n as [|n IH]; intros v; simpl; constructor.
  - unfold is_uchar. apply Z.mod_pos_bound. lia.
  - apply IH.
Qed.

Lemma le_value_bytes n v : le_value (le_bytes n v) = v mod 256 ^ Z.of_nat n.
Proof.
  revert v. induction n as [|n IH]; intros v.
  - simpl. now rewrite Z.mod_1_r.
  - cbn [le_bytes le_value]. rewrite IH.
    rewrite Nat2Z.inj_succ, Z.pow_succ_r by lia.
    rewrite Z.rem_mul_r by lia. reflexivity.
Qed.

Lemma le_value_range bs :
  Forall is_uchar bs -> 0 <= le_value bs < 256 ^ Z.of_nat (List.length bs).
Proof.
  induction 1 as [|b bs Hb _ IH].
  - simpl. lia.
  - cbn [le_value List.length]. rewrite Nat2Z.inj_succ, Z.pow_succ_r by lia.
    unfold is_uchar in Hb. lia.
Qed.

Lemma le_bytes_value bs :
  Forall is_uchar bs -> le_bytes (List.length bs) (le_value bs) = bs.
Proof.
  induction 1 as [|b bs Hb _ IH]; [reflexivity|].
  cbn [le_bytes le_value List.length]. unfold is_uchar in Hb.
  replace ((b + 256 * le_value bs) mod 256) with b.
  - replace ((b + 256 * le_value bs) / 256) with (le_value bs).
    + now rewrite IH.
    + symmetry. rewrite Z.mul_comm, Z.div_add by lia.
      rewrite Z.div_small by lia. reflexivity.
  - symmetry. rewrite Z.mul_comm, Z.mod_add by lia. apply Z.mod_small. lia.
Qed.

(** Only the residue modulo [256 ^ n] reaches the [n] bytes. *)
Lemma le_bytes_mod n v : le_bytes n (v mod 256 ^ Z.of_nat n) = le_bytes n v.
Proof.
  rewrite <- le_value_bytes.
  rewrite <- (le_bytes_length n v) at 1.
  apply le_bytes_value, le_bytes_uchar.
Qed.

Lemma le_bytes_signed64 v : le_bytes 8 (to_ll v) = le_bytes 8 v.
Proof.
  rewrite <- (le_bytes_mod 8 (to_ll v)), <- (le_bytes_mod 8 v). f_equal.
  unfold to_ll, signed_wrap.
  change (256 ^ Z.of_nat 8) with (2 ^ 64).
  rewrite Zminus_mod_idemp_l.
  f_equal. lia.
Qed.

Lemma le_bytes_signed32 v : le_bytes 4 (to_int v) = le_bytes 4 v.
Proof.
  rewrite <- (le_bytes_mod 4 (to_int v)), <- (le_bytes_mod 4 v). f_equal.
  unfold to_int, signed_wrap.
  change (256 ^ Z.of_nat 4) with (2 ^ 32).
  rewrite Zminus_mod_idemp_l.
  f_equal. lia.
Qed.

(** Reading back eight bytes as a signed 64-bit number. *)
Lemma signed64_roundtrip v : is_ll v -> to_ll (le_value (le_bytes 8 v)) = v.
Proof.
  intros Hv. rewrite le_value_bytes.
  change (256 ^ Z.of_nat 8) with (2 ^ 64).
  unfold to_ll, signed_wrap.
  change (2 ^ (64 - 1)) with (2 ^ 63).
  rewrite Zplus_mod_idemp_l.
  fold (signed_wrap 64 v). change (2 ^ 63) with (2 ^ (64 - 1)).
  apply to_ll_id, Hv.
Qed.


(** ** Facts about the process model *)

Lemma events_record e w : events (record e w) = events w ++ [e].
Proof. unfold events, record. cbn. now rewrite map_app. Qed.

Lemma events_preempt w : events (preempt w) = events w.
Proof. unfold preempt. now destruct (mutex_locked w). Qed.

Lemma events_step e w : events (step e w) = events w ++ [e].
Proof. unfold step. now rewrite events_preempt, events_record. Qed.

Lemma inbox_preempt w : inbox (preempt w) = inbox w.
Proof. unfold preempt. now destruct (mutex_locked w). Qed.

Lemma inbox_step e w : inbox (step e w) = inbox w.
Proof. unfold step. now rewrite inbox_preempt. Qed.

Lemma rti_socket_preempt w : rti_socket (preempt w) = rti_socket w.
Proof. unfold preempt. now destruct (mutex_locked w). Qed.

Lemma rti_socket_step e w : rti_socket (step e w) = rti_socket w.
Proof. unfold step. now rewrite rti_socket_preempt. Qed.

Lemma mutex_locked_preempt w : mutex_locked (preempt w) = mutex_locked w.
Proof. unfold preempt. destruct (mutex_locked w) eqn:E; [exact E | cbn; exact E]. Qed.

Lemma mutex_locked_step e w : mutex_locked (step e w) = mutex_locked w.
Proof. unfold step. now rewrite mutex_locked_preempt. Qed.

Lemma written_app es fs : written (es ++ fs) = written es ++ written fs.
Proof.
  induction es as [|e es IH]; [reflexivity|].
  destruct e; cbn [written app]; rewrite IH; try reflexivity.
  now rewrite app_assoc.
Qed.

Lemma firstn_exact {A} (xs ys : list A) : firstn (List.length xs) (xs ++ ys) = xs.
Proof.
  rewrite firstn_app, Nat.sub_diag, firstn_all. cbn. apply app_nil_r.
Qed.

Lemma skipn_exact {A} (xs ys : list A) : skipn (List.length xs) (xs ++ ys) = ys.
Proof.
  rewrite skipn_app, Nat.sub_diag, skipn_all. reflexivity.
Qed.

Create Rewrite HintDb world.
Hint Rewrite events_step events_record events_preempt inbox_step inbox_preempt
  rti_socket_step rti_socket_preempt mutex_locked_step mutex_locked_preempt
  written_app : world.

(** A world with enough pending bytes yields them to [read_from_socket]. *)
Lemma read_from_socket_ready fd bytes rest w :
  inbox w = bytes ++ rest ->
  read_from_socket fd (Z.of_nat (List.length bytes)) w
  = Done bytes (step (ev_read fd bytes) (set_inbox rest w)).
Proof.
  intros Hin. unfold read_from_socket. rewrite Nat2Z.id, Hin.
  rewrite firstn_exact, skipn_exact.
  replace (List.length bytes <=? List.length (bytes ++ rest))%nat with true.
  - reflexivity.
  - symmetry. apply Nat.leb_le. rewrite length_app. lia.
Qed.

(** *** The two senders *)

(** What [send_via_rti] really stores: the low byte of each field, and
    zero where a higher byte belongs. *)
Lemma send_via_rti_buffer_bytes port federate length :
  send_via_rti_buffer port federate length
  = [to_uchar MESSAGE; port mod 256; 0; federate mod 256; 0;
     length mod 256; 0; 0; 0].
Proof.
  unfold send_via_rti_buffer.
  rewrite !low_mask_in_uchar.
  rewrite !high_mask_in_uchar by reflexivity.
  reflexivity.
Qed.


Lemma events_set_inbox bs w : events (set_inbox bs w) = events w.
Proof. reflexivity. Qed.
Lemma inbox_set_inbox bs w : inbox (set_inbox bs w) = bs.
Proof. reflexivity. Qed.
Lemma rti_socket_set_inbox bs w : rti_socket (set_inbox bs w) = rti_socket w.
Proof. reflexivity. Qed.
Lemma mutex_locked_set_inbox bs w : mutex_locked (set_inbox bs w) = mutex_locked w.
Proof. reflexivity. Qed.
Lemma events_set_mutex_locked b w : events (set_mutex_locked b w) = events w.
Proof. reflexivity. Qed.
Lemma inbox_set_mutex_locked b w : inbox (set_mutex_locked b w) = inbox w.
Proof. reflexivity. Qed.
Lemma rti_socket_set_mutex_locked b w :
  rti_socket (set_mutex_locked b w) = rti_socket w.
Proof. reflexivity. Qed.
Lemma mutex_locked_set_mutex_locked b w : mutex_locked (set_mutex_locked b w) = b.
Proof. reflexivity. Qed.
Lemma events_set_rti_socket fd w : events (set_rti_socket fd w) = events w.
Proof. reflexivity. Qed.
Lemma rti_socket_set_rti_socket fd w : rti_socket (set_rti_socket fd w) = fd.
Proof. reflexivity. Qed.

Hint Rewrite events_set_inbox inbox_set_inbox rti_socket_set_inbox
  mutex_locked_set_inbox events_set_mutex_locked inbox_set_mutex_locked
  rti_socket_set_mutex_locked mutex_locked_set_mutex_locked
  events_set_rti_socket rti_socket_set_rti_socket : world.

(** Unfolding one monadic step. *)
Ltac run_bind := unfold bind, ret, get_rti_socket; cbv beta iota.

Lemma write_to_socket_ok fd num_bytes buffer w :
  (forall i n, 0 <= sys_write env i n) ->
  write_to_socket fd num_bytes buffer w
  = Done tt (step (ev_write fd (firstn (Z.to_nat num_bytes) buffer)) w).
Proof.
  intros Hok. unfold write_to_socket.
  destruct (Z.ltb_spec (sys_write env (now w) num_bytes) 0) as [Hneg|_].
  - specialize (Hok (now w) num_bytes). lia.
  - reflexivity.
Qed.

Lemma send_via_rti_ok port federate length message w :
  port < 65536 -> federate < 65536 ->
  (forall i n, 0 <= sys_write env i n) ->
  send_via_rti port federate length message w
  = Done tt
      (step (ev_write (rti_socket w) (firstn (Z.to_nat length) message))
         (step (ev_write (rti_socket w)
                  (send_via_rti_buffer port federate length)) w)).
Proof.
  intros Hp Hf Hok. unfold send_via_rti, assert.
  apply Z.ltb_lt in Hp, Hf. rewrite Hp, Hf. run_bind.
  rewrite write_to_socket_ok by exact Hok. cbv beta iota.
  rewrite write_to_socket_ok by exact Hok.
  now rewrite rti_socket_step.
Qed.

Lemma send_via_rti_timed_ok port federate length message w :
  port < 65536 -> federate < 65536 ->
  (forall i n, 0 <= sys_write env i n) ->
  send_via_rti_timed port federate length message w
  = Done tt
      (step (ev_write (rti_socket w) (firstn (Z.to_nat length) message))
         (step (ev_write (rti_socket w)
                  (send_via_rti_timed_buffer port federate length
                     (current_time w)))
            (step ev_get_logical_time w))).
Proof.
  intros Hp Hf Hok. unfold send_via_rti_timed, assert.
  apply Z.ltb_lt in Hp, Hf. rewrite Hp, Hf. run_bind.
  unfold get_logical_time. cbv beta iota.
  rewrite write_to_socket_ok by exact Hok. cbv beta iota.
  rewrite write_to_socket_ok by exact Hok.
  now rewrite !rti_socket_step.
Qed.

(** *** The listener *)

Lemma handle_message_ready w hdr payload rest port_id federate_id length :
  List.length hdr = 8%nat ->
  extract_header hdr = (port_id, federate_id, length) ->
  length = Z.of_nat (List.length payload) ->
  inbox w = hdr ++ payload ++ rest ->
  handle_message w
  = Done tt
      (step (ev_schedule_value (__action_for_port env port_id) 0 payload length)
         (step (ev_read (rti_socket w) payload)
            (set_inbox rest
               (step (ev_read (rti_socket w) hdr)
                  (set_inbox (payload ++ rest) w))))).
Proof.
  intros Hlen Hhdr -> Hin. unfold handle_message. run_bind.
  replace 8 with (Z.of_nat (List.length hdr)) by (rewrite Hlen; reflexivity).
  rewrite (read_from_socket_ready _ hdr (payload ++ rest)) by exact Hin.
  cbv beta iota. rewrite Hhdr. cbv beta iota.
  rewrite (read_from_socket_ready _ payload rest)
    by (now autorewrite with world).
  cbv beta iota. unfold schedule_value.
  now autorewrite with world.
Qed.

Lemma handle_timed_message_ready w hdr tsb payload rest port_id federate_id length :
  mutex_locked w = false ->
  List.length hdr = 8%nat -> List.length tsb = 8%nat ->
  extract_header hdr = (port_id, federate_id, length) ->
  length = Z.of_nat (List.length payload) ->
  inbox w = hdr ++ tsb ++ payload ++ rest ->
  let w3 :=
    step (ev_read (rti_socket w) payload)
      (set_inbox rest
         (step (ev_read (rti_socket w) tsb)
            (set_inbox (payload ++ rest)
               (step (ev_read (rti_socket w) hdr)
                  (set_inbox (tsb ++ payload ++ rest) w))))) in
  handle_timed_message w
  = Done tt
      (preempt
         (set_mutex_locked false
            (record ev_mutex_unlock
               (step (ev_schedule_value (__action_for_port env port_id)
                        (to_ll (extract_ll tsb - current_time w3))
                        payload length)
                  (step ev_get_logical_time
                     (step ev_mutex_lock (set_mutex_locked true w3))))))).
Proof.
  intros Hfree Hlen Hlen8 Hhdr -> Hin w3. unfold handle_timed_message. run_bind.
  replace 8 with (Z.of_nat (List.length hdr)) at 1 by (rewrite Hlen; reflexivity).
  rewrite (read_from_socket_ready _ hdr (tsb ++ payload ++ rest)) by exact Hin.
  cbv beta iota. rewrite Hhdr. cbv beta iota.
  replace 8 with (Z.of_nat (List.length tsb)) by (rewrite Hlen8; reflexivity).
  rewrite (read_from_socket_ready _ tsb (payload ++ rest))
    by (now autorewrite with world).
  cbv beta iota.
  rewrite (read_from_socket_ready _ payload rest)
    by (now autorewrite with world).
  cbv beta iota. autorewrite with world. fold w3.
  unfold pthread_mutex_lock.
  replace (mutex_locked w3) with false
    by (subst w3; now autorewrite with world).
  unfold get_logical_time, schedule_value, pthread_mutex_unlock.
  cbv beta iota.
  assert (Hstill : forall e v,
             current_time (step e (set_mutex_locked true v)) = current_time v).
  { intros e v. reflexivity. }
  rewrite Hstill. reflexivity.
Qed.

Lemma listen_to_rti_tag fuel tag rest w :
  inbox w = tag :: rest ->
  listen_to_rti (S fuel) w
  = (if tag =? MESSAGE then handle_message ;; listen_to_rti fuel
     else if tag =? TIMED_MESSAGE
          then handle_timed_message ;; listen_to_rti fuel
          else error ERROR_UNRECOGNIZED_MESSAGE_TYPE)
      (step (ev_read (rti_socket w) [tag]) (set_inbox rest w)).
Proof.
  intros Hin. cbn [listen_to_rti]. unfold bind at 1 2, get_rti_socket.
  rewrite (read_from_socket_ready _ [tag] rest w Hin : read_from_socket _ 1 w = _).
  reflexivity.
Qed.


Lemma activities_app es fs : activities (es ++ fs) = activities es ++ activities fs.
Proof.
  induction es as [|e es IH]; [reflexivity|].
  destruct e; cbn [activities app]; now rewrite IH.
Qed.

Lemma acquisitions_app es fs :
  acquisitions (es ++ fs) = (acquisitions es + acquisitions fs)%nat.
Proof.
  induction es as [|e es IH]; [reflexivity|].
  destruct e; cbn [acquisitions app]; now rewrite IH.
Qed.

Lemma deliveries_app es fs : deliveries (es ++ fs) = deliveries es ++ deliveries fs.
Proof.
  induction es as [|e es IH]; [reflexivity|].
  destruct e; cbn [deliveries app]; now rewrite IH.
Qed.

Hint Rewrite activities_app acquisitions_app deliveries_app : world.

(** ** The claims *)

(** C4. A send whose port or federate does not fit in 16 bits (65536 or
    more) fails on the assertion that guards it, in the plain and in the
    timed sender alike, and leaves the world as it found it: nothing is
    written to the connection. *)
Theorem send_rejects_wide_address port federate length message w :
  65536 <= port \/ 65536 <= federate ->
  exists expr,
    send_via_rti port federate length message w
    = Halt (assertion_failure expr) w
    /\ send_via_rti_timed port federate length message w
       = Halt (assertion_failure expr) w.
Proof.
  intros Hwide. unfold send_via_rti, send_via_rti_timed, assert, bind, stop, ret.
  destruct (Z.ltb_spec port 65536) as [Hp|Hp].
  - destruct (Z.ltb_spec federate 65536) as [Hf|Hf]; [lia|].
    now exists "federate < 65536"%string.
  - now exists "port < 65536"%string.
Qed.

(** C1. The plain sender keeps only the low byte of the port, of the
    federate and of the length: the bytes above are masked but not shifted,
    and are lost in the [unsigned char]. What it sends reads back as the
    three fields modulo 256; the header for port 256 is the header for
    port 0, and is read back as port 0. *)
Theorem send_via_rti_loses_high_bytes port federate length :
  tl (send_via_rti_buffer port federate length)
  = [port mod 256; 0; federate mod 256; 0; length mod 256; 0; 0; 0]
  /\ extract_header (tl (send_via_rti_buffer port federate length))
     = (port mod 256, federate mod 256, length mod 256)
  /\ send_via_rti_buffer 256 0 0 = send_via_rti_buffer 0 0 0
  /\ extract_header (tl (send_via_rti_buffer 256 0 0)) = (0, 0, 0).
Proof.
  rewrite !send_via_rti_buffer_bytes. split; [reflexivity|].
  split; [|split; reflexivity].
  unfold extract_header. cbn [tl firstn skipn le_value].
  f_equal; [f_equal|]; lia.
Qed.


(** C7. Sending port 3, federate 7 and the payload 0x41 0x42 puts exactly
    the eleven bytes MESSAGE 03 00 07 00 02 00 00 00 41 42 on the
    connection; the header among them reads back as port 3, federate 7,
    length 2; and a listener that receives the eleven bytes hands the same
    payload to the action of port 3 before it runs out of input. *)
Theorem plain_message_scenario (w r : World) (fuel : nat) :
  is_uchar MESSAGE ->
  (forall i n, 0 <= sys_write env i n) ->
  inbox r = [MESSAGE; 3; 0; 7; 0; 2; 0; 0; 0; 0x41; 0x42] ->
  (exists w',
      send_via_rti 3 7 2 [0x41; 0x42] w = Done tt w'
      /\ written (events w')
         = written (events w)
             ++ [MESSAGE; 3; 0; 7; 0; 2; 0; 0; 0; 0x41; 0x42])
  /\ extract_header [3; 0; 7; 0; 2; 0; 0; 0] = (3, 7, 2)
  /\ (exists r',
         listen_to_rti (S (S fuel)) r = Halt transport_failure r'
         /\ events r'
            = events r
                ++ [ev_read (rti_socket r) [MESSAGE];
                    ev_read (rti_socket r) [3; 0; 7; 0; 2; 0; 0; 0];
                    ev_read (rti_socket r) [0x41; 0x42];
                    ev_schedule_value (__action_for_port env 3) 0 [0x41; 0x42] 2]).
Proof.
  intros Htag Hok Hin. split; [|split].
  - eexists. split.
    + apply send_via_rti_ok; [lia | lia | exact Hok].
    + autorewrite with world. rewrite send_via_rti_buffer_bytes.
      rewrite (to_uchar_id _ Htag). cbn. now rewrite <- app_assoc.
  - reflexivity.
  - rewrite (listen_to_rti_tag _ _ _ _ Hin). rewrite Z.eqb_refl.
    unfold bind at 1.
    rewrite (handle_message_ready _ [3; 0; 7; 0; 2; 0; 0; 0] [0x41; 0x42] []
               3 7 2) by (autorewrite with world; reflexivity).
    cbn [listen_to_rti]. unfold bind at 1 2, get_rti_socket.
    unfold read_from_socket. autorewrite with world. cbn [Z.to_nat Pos.to_nat
      Pos.iter_op Nat.leb List.length].
    eexists. split; [reflexivity|].
    autorewrite with world. now rewrite <- !app_assoc.
Qed.

(** C8. A plain message is handed to the scheduler with delay zero, for
    the action of the port its header names, with the payload that follows
    the header; the handler consumes exactly the header and the payload. *)
Theorem handle_message_zero_delay
  (w : World) (hdr payload rest : list Z) (port_id federate_id length : Z) :
  List.length hdr = 8%nat ->
  extract_header hdr = (port_id, federate_id, length) ->
  length = Z.of_nat (List.length payload) ->
  inbox w = hdr ++ payload ++ rest ->
  exists w',
    handle_message w = Done tt w'
    /\ events w'
       = events w
           ++ [ev_read (rti_socket w) hdr;
               ev_read (rti_socket w) payload;
               ev_schedule_value (__action_for_port env port_id) 0 payload length]
    /\ inbox w' = rest.
Proof.
  intros Hlen Hhdr Hpay Hin. eexists. split; [|split].
  - apply (handle_message_ready w hdr payload rest port_id federate_id length);
      assumption.
  - autorewrite with world. now rewrite <- !app_assoc.
  - now autorewrite with world.
Qed.


Lemma extract_ll_encode_ll v rest : is_ll v -> extract_ll (encode_ll v ++ rest) = v.
Proof.
  intros Hv. unfold extract_ll, encode_ll.
  change (firstn 8 (le_bytes 8 v ++ rest)) with (le_bytes 8 v).
  apply signed64_roundtrip, Hv.
Qed.

Lemma extract_header_encode port federate length rest :
  0 <= port < 65536 -> 0 <= federate < 65536 -> 0 <= length < 2 ^ 32 ->
  extract_header
    (encode_ushort port ++ encode_ushort federate ++ encode_int length ++ rest)
  = (port, federate, length).
Proof.
  intros Hp Hf Hl. unfold extract_header, encode_ushort, encode_int.
  change (firstn 2 (le_bytes 2 port ++ le_bytes 2 federate ++ le_bytes 4 length ++ rest))
    with (le_bytes 2 port).
  change (firstn 2 (skipn 2 (le_bytes 2 port ++ le_bytes 2 federate
                               ++ le_bytes 4 length ++ rest)))
    with (le_bytes 2 federate).
  change (firstn 4 (skipn 4 (le_bytes 2 port ++ le_bytes 2 federate
                               ++ le_bytes 4 length ++ rest)))
    with (le_bytes 4 length).
  rewrite !le_value_bytes.
  change (256 ^ Z.of_nat 2) with 65536. change (256 ^ Z.of_nat 4) with (2 ^ 32).
  rewrite !Z.mod_small by lia. reflexivity.
Qed.

(** The timed sender does what the plain one misses: what it sends for a
    port, a federate and a payload reads back as the same port, federate,
    length and timestamp. *)
Lemma send_via_rti_timed_roundtrip port federate time (payload : list Z) :
  0 <= port < 65536 -> 0 <= federate < 65536 ->
  Z.of_nat (List.length payload) < 2 ^ 32 -> is_ll time ->
  let frame :=
    tl (send_via_rti_timed_buffer port federate
          (Z.of_nat (List.length payload)) time) ++ payload in
  extract_header frame = (port, federate, Z.of_nat (List.length payload))
  /\ extract_ll (skipn 8 frame) = time
  /\ skipn 16 frame = payload.
Proof.
  intros Hp Hf Hl Ht frame. subst frame. unfold send_via_rti_timed_buffer.
  cbn [tl app]. rewrite <- !app_assoc. split; [|split].
  - apply extract_header_encode; lia.
  - change (skipn 8 (encode_ushort port ++ encode_ushort federate
                      ++ encode_int (Z.of_nat (List.length payload))
                      ++ encode_ll time ++ payload))
      with (encode_ll time ++ payload).
    apply extract_ll_encode_ll, Ht.
  - reflexivity.
Qed.

(** C9. The timestamp of an outgoing timed message is the logical time of
    the federate when the sender is called: whatever port, federate, length
    and message the caller passes, the eight bytes at offset 9 of the
    17-byte header read back as that logical time. *)
Theorem send_via_rti_timed_stamps_logical_time
  (port federate length : Z) (message : list Z) (w : World) :
  port < 65536 -> federate < 65536 ->
  (forall i n, 0 <= sys_write env i n) ->
  is_ll (current_time w) ->
  exists w' header,
    send_via_rti_timed port federate length message w = Done tt w'
    /\ written (events w')
       = written (events w) ++ header ++ firstn (Z.to_nat length) message
    /\ List.length header = 17%nat
    /\ skipn 9 header = encode_ll (current_time w)
    /\ extract_ll (skipn 9 header) = current_time w.
Proof.
  intros Hp Hf Hok Hnow.
  exists (step (ev_write (rti_socket w) (firstn (Z.to_nat length) message))
            (step (ev_write (rti_socket w)
                     (send_via_rti_timed_buffer port federate length
                        (current_time w)))
               (step ev_get_logical_time w))).
  exists (send_via_rti_timed_buffer port federate length (current_time w)).
  split; [|split; [|split; [|split]]].
  - apply send_via_rti_timed_ok; assumption.
  - autorewrite with world. cbn [written]. rewrite !app_nil_r.
    now rewrite <- app_assoc.
  - reflexivity.
  - reflexivity.
  - change (skipn 9 (send_via_rti_timed_buffer port federate length (current_time w)))
      with (encode_ll (current_time w) ++ []).
    apply extract_ll_encode_ll, Hnow.
Qed.


(** C2. A timed message is handed to the scheduler with the delay
    [timestamp - t], where [t] is the logical time the handler reads with
    the mutex held: taking the mutex, reading the time, scheduling and
    releasing the mutex all happen at logical time [t], whatever the other
    thread does to the clock during the three reads before. *)
Theorem handle_timed_message_delay
  (w : World) (hdr tsb payload rest : list Z)
  (port_id federate_id length timestamp t : Z) :
  mutex_locked w = false ->
  List.length hdr = 8%nat -> List.length tsb = 8%nat ->
  extract_header hdr = (port_id, federate_id, length) ->
  length = Z.of_nat (List.length payload) ->
  extract_ll tsb = timestamp ->
  inbox w = hdr ++ tsb ++ payload ++ rest ->
  clock_after 3 (now w) (current_time w) = t ->
  is_ll (timestamp - t) ->
  exists w',
    handle_timed_message w = Done tt w'
    /\ trace w'
       = trace w
           ++ [(current_time w, ev_read (rti_socket w) hdr);
               (clock_after 1 (now w) (current_time w),
                ev_read (rti_socket w) tsb);
               (clock_after 2 (now w) (current_time w),
                ev_read (rti_socket w) payload);
               (t, ev_mutex_lock);
               (t, ev_get_logical_time);
               (t, ev_schedule_value (__action_for_port env port_id)
                     (timestamp - t) payload length);
               (t, ev_mutex_unlock)]
    /\ mutex_locked w' = false.
Proof.
  intros Hfree Hlen Hlen8 Hhdr Hpay Hts Hin Ht Hfit.
  eexists. split; [|split].
  - apply (handle_timed_message_ready w hdr tsb payload rest
             port_id federate_id length); assumption.
  - destruct w as [fd ct lk ib tr]. cbn in Hfree. subst lk.
    unfold now in *. cbn in Ht |- *.
    rewrite !length_app. cbn [List.length]. rewrite !Nat.add_1_r.
    rewrite Ht, Hts, (to_ll_id _ Hfit). now rewrite <- !app_assoc.
  - reflexivity.
Qed.


(** C10. The plain handler reads the header and the payload and calls
    the scheduler without ever taking the mutex: on a whole message its
    history gains exactly the two reads and the scheduler call, with no
    acquisition, and on any input at all, however far it gets (the header
    or the payload may be cut short), it gains no acquisition and the
    mutex is free when it stops. The timed handler takes the mutex once
    the payload is read, and reads the logical time and calls the
    scheduler before it releases it. *)
Theorem mutex_taken_only_for_timed_messages
  (u w v : World) (hdr tsb payload rest : list Z)
  (port_id federate_id length : Z) :
  mutex_locked u = false ->
  mutex_locked w = false ->
  mutex_locked v = false ->
  List.length hdr = 8%nat -> List.length tsb = 8%nat ->
  extract_header hdr = (port_id, federate_id, length) ->
  length = Z.of_nat (List.length payload) ->
  inbox w = hdr ++ payload ++ rest ->
  inbox v = hdr ++ tsb ++ payload ++ rest ->
  match handle_message u with
  | Done _ u' | Halt _ u' =>
      acquisitions (events u') = acquisitions (events u)
      /\ mutex_locked u' = false
  | OutOfFuel => False
  end
  /\ (exists w',
         handle_message w = Done tt w'
         /\ events w'
            = events w
                ++ [ev_read (rti_socket w) hdr;
                    ev_read (rti_socket w) payload;
                    ev_schedule_value (__action_for_port env port_id) 0
                      payload length]
         /\ acquisitions (events w') = acquisitions (events w)
         /\ mutex_locked w' = false)
  /\ exists v',
      handle_timed_message v = Done tt v'
      /\ events v'
         = events v
             ++ [ev_read (rti_socket v) hdr;
                 ev_read (rti_socket v) tsb;
                 ev_read (rti_socket v) payload;
                 ev_mutex_lock;
                 ev_get_logical_time;
                 ev_schedule_value (__action_for_port env port_id)
                   (to_ll (extract_ll tsb
                           - clock_after 3 (now v) (current_time v)))
                   payload length;
                 ev_mutex_unlock]
      /\ acquisitions (events v') = S (acquisitions (events v)).
Proof.
  intros Hu Hw Hv Hlen Hlen8 Hhdr Hpay Hinw Hin. split; [|split].
  - unfold handle_message. run_bind. unfold read_from_socket at 1.
    destruct (Z.to_nat 8 <=? List.length (inbox u))%nat; [|now split].
    cbv beta iota.
    destruct (extract_header (firstn (Z.to_nat 8) (inbox u))) as [[p f] l].
    unfold read_from_socket.
    match goal with
    | |- context [if ?c then _ else _] => destruct c
    end; unfold schedule_value; autorewrite with world; cbn [acquisitions];
      (split; [lia | assumption]).
  - eexists. split; [|split; [|split]].
    + apply (handle_message_ready w hdr payload rest
               port_id federate_id length); assumption.
    + autorewrite with world. now rewrite <- !app_assoc.
    + autorewrite with world. cbn [acquisitions]. lia.
    + autorewrite with world. exact Hw.
  - eexists. split; [|split].
    + apply (handle_timed_message_ready v hdr tsb payload rest
               port_id federate_id length); assumption.
    + destruct v as [fd ct lk ib tr]. cbn in Hv. subst lk.
      unfold events, now. cbn.
      rewrite !length_app. cbn [List.length]. rewrite !Nat.add_1_r.
      rewrite !map_app. cbn. now rewrite <- !app_assoc.
    + autorewrite with world. cbn [acquisitions]. lia.
Qed.


(** *** The handshake *)

Lemma le_bytes_value8 bs :
  List.length bs = 8%nat -> Forall is_uchar bs -> le_bytes 8 (le_value bs) = bs.
Proof. intros Hlen Hbs. rewrite <- Hlen. apply le_bytes_value, Hbs. Qed.

(** On either kind of host the swapped object lies in memory least
    significant byte first. *)
Lemma native_bytes_swapped_ll v :
  native_bytes 8 (swap_bytes_if_big_endian_ll v) = encode_ll v.
Proof.
  unfold native_bytes, swap_bytes_if_big_endian_ll, encode_ll.
  destruct (host_big_endian env); [|reflexivity].
  rewrite le_bytes_signed64, le_bytes_value8.
  - apply rev_involutive.
  - now rewrite length_rev, le_bytes_length.
  - apply Forall_rev, le_bytes_uchar.
Qed.

(** On either kind of host the object read from memory and swapped is the
    number the bytes denote least significant byte first. *)
Lemma swapped_native_value_ll bs :
  List.length bs = 8%nat -> Forall is_uchar bs ->
  swap_bytes_if_big_endian_ll (to_ll (native_value bs)) = to_ll (le_value bs).
Proof.
  intros Hlen Hbs. unfold native_value, swap_bytes_if_big_endian_ll.
  destruct (host_big_endian env); [|reflexivity].
  rewrite le_bytes_signed64, le_bytes_value8.
  - now rewrite rev_involutive.
  - now rewrite length_rev.
  - apply Forall_rev, Hbs.
Qed.

(** C5. The handshake writes the TIMESTAMP marker and the eight bytes of
    [my_physical_time], least significant first, reads the nine bytes of
    one reply and nothing more, and returns the start time the reply
    carries, on a little-endian and on a big-endian host alike. *)
Theorem get_start_time_from_rti_returns_reply
  (w : World) (my_physical_time start_time : Z) (rest : list Z) :
  is_uchar TIMESTAMP ->
  (forall i n, 0 <= n -> sys_write env i n = n) ->
  is_ll start_time ->
  inbox w = (TIMESTAMP :: encode_ll start_time) ++ rest ->
  exists w',
    get_start_time_from_rti my_physical_time w = Done start_time w'
    /\ events w'
       = events w
           ++ [ev_write (rti_socket w) [TIMESTAMP];
               ev_write (rti_socket w) (encode_ll my_physical_time);
               ev_read (rti_socket w) (TIMESTAMP :: encode_ll start_time);
               ev_printf "Federate: starting timestamp is: %lld\n"]
    /\ inbox w' = rest.
Proof.
  intros Htag Hok Hstart Hin.
  unfold get_start_time_from_rti. run_bind. unfold write. cbv beta iota zeta.
  rewrite (to_uchar_id _ Htag), native_bytes_swapped_ll.
  rewrite Hok by lia. change (1 <? 0) with false. cbv beta iota.
  rewrite Hok by lia. change (8 <? 0) with false. cbv beta iota.
  change (firstn (Z.to_nat (Z.min 1 1)) [TIMESTAMP]) with [TIMESTAMP].
  change (firstn (Z.to_nat (Z.min 8 8)) (encode_ll my_physical_time))
    with (encode_ll my_physical_time).
  autorewrite with world.
  change 9 with (Z.of_nat (List.length (TIMESTAMP :: encode_ll start_time))).
  rewrite (read_from_socket_ready _ (TIMESTAMP :: encode_ll start_time) rest)
    by (now autorewrite with world).
  cbv beta iota. cbn [nth]. rewrite Z.eqb_refl. cbv beta iota.
  change (firstn 8 (skipn 1 (TIMESTAMP :: encode_ll start_time)))
    with (encode_ll start_time).
  rewrite swapped_native_value_ll
    by (unfold encode_ll; first [apply le_bytes_length | apply le_bytes_uchar]).
  replace (to_ll (le_value (encode_ll start_time))) with start_time
    by (symmetry; apply signed64_roundtrip, Hstart).
  unfold printf. eexists. split; [reflexivity|]. split.
  - autorewrite with world. now rewrite <- !app_assoc.
  - now autorewrite with world.
Qed.

(** C6. A reply to the handshake whose tag is not TIMESTAMP ends the
    process with status 1 and reaches no scheduler call; a tag that is
    neither MESSAGE nor TIMED_MESSAGE ends the listener with the
    unrecognized-message-type error as soon as it is read, with nothing
    handed to the scheduler and the bytes after the tag left unread. *)
Theorem unexpected_tag_is_fatal
  (w v : World) (my_physical_time reply_tag tag : Z)
  (body rest pending : list Z) (fuel : nat) :
  (forall i n, 0 <= sys_write env i n) ->
  reply_tag <> TIMESTAMP ->
  List.length body = 8%nat ->
  inbox w = (reply_tag :: body) ++ rest ->
  tag <> MESSAGE -> tag <> TIMED_MESSAGE ->
  inbox v = tag :: pending ->
  (exists w',
      get_start_time_from_rti my_physical_time w = Halt (exit_status 1) w'
      /\ deliveries (events w') = deliveries (events w))
  /\ (exists v',
         listen_to_rti (S fuel) v
         = Halt (error_exit ERROR_UNRECOGNIZED_MESSAGE_TYPE) v'
         /\ events v' = events v ++ [ev_read (rti_socket v) [tag]]
         /\ inbox v' = pending).
Proof.
  intros Hok Hreply Hbody Hin Htag Htimed Hpending. split.
  - assert (Hnn : forall i n, (sys_write env i n <? 0) = false).
    { intros i n. apply Z.ltb_ge, Hok. }
    unfold get_start_time_from_rti. run_bind. unfold write. cbv beta iota zeta.
    rewrite Hnn. cbv beta iota. rewrite Hnn. cbv beta iota.
    autorewrite with world.
    replace 9 with (Z.of_nat (List.length (reply_tag :: body)))
      by (cbn [List.length]; rewrite Hbody; reflexivity).
    rewrite (read_from_socket_ready _ (reply_tag :: body) rest)
      by (now autorewrite with world).
    cbv beta iota. cbn [nth].
    apply Z.eqb_neq in Hreply. rewrite Hreply. cbn [negb].
    unfold fprintf_stderr, exit, stop. eexists. split; [reflexivity|].
    autorewrite with world. cbn [deliveries]. now rewrite !app_nil_r.
  - rewrite (listen_to_rti_tag _ _ _ _ Hpending).
    apply Z.eqb_neq in Htag, Htimed. rewrite Htag, Htimed.
    unfold error, stop. eexists. split; [reflexivity|].
    split; now autorewrite with world.
Qed.


(** *** The connection loop *)

Section AlwaysRefused.

(** A socket and an address are always to be had, and the RTI refuses every
    connection. *)
Hypothesis socket_ok : forall i, 0 <= sys_socket env i.
Hypothesis host_ok : forall i, sys_gethostbyname env i = true.
Hypothesis refused : forall i, sys_connect env i < 0.
Hypothesis retries_fit : 0 <= CONNECT_NUM_RETRIES < INT_MAX.

(** With [k] retries left the loop makes one attempt, then [k] rounds of
    wait and attempt, and exits with status 2; it writes nothing. *)
Lemma connect_to_rti_loop_gives_up hostname port (k : nat) :
  forall (fuel : nat) (count_retries : Z) (w : World),
    0 <= count_retries ->
    count_retries + Z.of_nat k = CONNECT_NUM_RETRIES ->
    (k < fuel)%nat ->
    exists w',
      connect_to_rti_loop fuel hostname port count_retries w
      = Halt (exit_status 2) w'
      /\ activities (events w')
         = activities (events w) ++ attempt :: retries k CONNECT_RETRY_INTERVAL
      /\ written (events w') = written (events w).
Proof.
  assert (Hsock : forall i, (sys_socket env i <? 0) = false).
  { intros i. apply Z.ltb_ge, socket_ok. }
  assert (Hconn : forall i, (sys_connect env i <? 0) = true).
  { intros i. apply Z.ltb_lt, refused. }
  induction k as [|k IH]; intros fuel c w Hc Hsum Hfuel;
    (destruct fuel as [|fuel]; [lia|]);
    cbn [connect_to_rti_loop];
    unfold bind, socket, gethostbyname, connect, get_rti_socket, ret;
    cbv beta iota zeta;
    rewrite Hsock; cbv beta iota;
    rewrite host_ok; cbn [negb]; cbv beta iota;
    rewrite Hconn; cbv beta iota;
    rewrite to_int_id by (unfold INT_MAX in *; lia);
    rewrite Z.gtb_ltb.
  - destruct (Z.ltb_spec CONNECT_NUM_RETRIES (c + 1)) as [_|Hle]; [|lia].
    unfold fprintf_stderr, exit, stop. eexists. split; [reflexivity|].
    autorewrite with world. cbn [activities written retries].
    rewrite !app_nil_r. split; reflexivity.
  - destruct (Z.ltb_spec CONNECT_NUM_RETRIES (c + 1)) as [Hlt|_]; [lia|].
    unfold printf, nanosleep. cbv beta iota zeta.
    match goal with
    | |- context [if ?b then _ else _] => destruct b
    end;
      (match goal with
       | |- context [connect_to_rti_loop fuel hostname port (c + 1) ?v] =>
           destruct (IH fuel (c + 1) v) as [w' [Hrun [Hact Hwr]]];
           [lia | lia | lia |]
       end;
       exists w'; split; [exact Hrun|];
       rewrite Hact, Hwr; autorewrite with world;
       cbn [activities written retries]; rewrite !app_nil_r;
       split; [now rewrite <- !app_assoc | reflexivity]).
Qed.

End AlwaysRefused.


(** C3. When the RTI refuses every connection, [connect_to_rti] makes a
    first attempt and then exactly CONNECT_NUM_RETRIES more, each after a
    wait of CONNECT_RETRY_INTERVAL seconds, and exits with status 2 after
    the last; whether a wait completes or is interrupted changes nothing,
    and no byte is written. *)
Theorem connect_to_rti_retry_bound
  (fuel : nat) (id : Z) (hostname : string) (port : Z) (w : World) :
  (forall i, 0 <= sys_socket env i) ->
  (forall i, sys_gethostbyname env i = true) ->
  (forall i, sys_connect env i < 0) ->
  0 <= CONNECT_NUM_RETRIES < INT_MAX ->
  (Z.to_nat CONNECT_NUM_RETRIES < fuel)%nat ->
  exists w',
    connect_to_rti fuel id hostname port w = Halt (exit_status 2) w'
    /\ activities (events w')
       = activities (events w)
           ++ attempt
              :: retries (Z.to_nat CONNECT_NUM_RETRIES) CONNECT_RETRY_INTERVAL
    /\ written (events w') = written (events w).
Proof.
  intros Hsock Hhost Hrefused Hfit Hfuel.
  destruct (connect_to_rti_loop_gives_up Hsock Hhost Hrefused Hfit
              hostname port (Z.to_nat CONNECT_NUM_RETRIES) fuel 0 w)
    as [w' [Hrun Hrest]]; [lia | lia | exact Hfuel |].
  exists w'. split; [|exact Hrest].
  unfold connect_to_rti, bind at 1. now rewrite Hrun.
Qed.


(** ** Further properties of the code *)

Lemma receipts_app es fs : receipts (es ++ fs) = receipts es ++ receipts fs.
Proof.
  induction es as [|e es IH]; [reflexivity|].
  destruct e; cbn [receipts app]; now rewrite IH.
Qed.

Lemma now_record e w : now (record e w) = S (now w).
Proof. unfold now, record. cbn. rewrite length_app. cbn. lia. Qed.

Lemma now_preempt w : now (preempt w) = now w.
Proof. unfold preempt. now destruct (mutex_locked w). Qed.

Lemma now_step e w : now (step e w) = S (now w).
Proof. unfold step. now rewrite now_preempt, now_record. Qed.

Lemma now_set_inbox bs w : now (set_inbox bs w) = now w.
Proof. reflexivity. Qed.
Lemma now_set_rti_socket fd w : now (set_rti_socket fd w) = now w.
Proof. reflexivity. Qed.
Lemma now_set_mutex_locked b w : now (set_mutex_locked b w) = now w.
Proof. reflexivity. Qed.
Lemma inbox_set_rti_socket fd w : inbox (set_rti_socket fd w) = inbox w.
Proof. reflexivity. Qed.
Lemma mutex_locked_set_rti_socket fd w :
  mutex_locked (set_rti_socket fd w) = mutex_locked w.
Proof. reflexivity. Qed.

Lemma inbox_record e w : inbox (record e w) = inbox w.
Proof. reflexivity. Qed.
Lemma rti_socket_record e w : rti_socket (record e w) = rti_socket w.
Proof. reflexivity. Qed.
Lemma mutex_locked_record e w : mutex_locked (record e w) = mutex_locked w.
Proof. reflexivity. Qed.

Hint Rewrite receipts_app now_step now_record now_preempt now_set_inbox
  now_set_rti_socket now_set_mutex_locked inbox_set_rti_socket
  mutex_locked_set_rti_socket inbox_record rti_socket_record
  mutex_locked_record : world.

(** What [read_from_socket] does with the input it finds. *)
Lemma read_from_socket_cases fd num_bytes w :
  let n := Z.to_nat num_bytes in
  (n <= List.length (inbox w))%nat
  /\ read_from_socket fd num_bytes w
     = Done (firstn n (inbox w))
         (step (ev_read fd (firstn n (inbox w)))
            (set_inbox (skipn n (inbox w)) w))
  \/ (List.length (inbox w) < n)%nat
     /\ read_from_socket fd num_bytes w = Halt transport_failure w.
Proof.
  intros n. unfold read_from_socket. fold n.
  destruct (Nat.leb_spec n (List.length (inbox w))) as [Hle|Hgt].
  - left. now split.
  - right. now split.
Qed.

(** *** The handlers on any input *)

(** Every way [handle_message] can end. *)
Lemma handle_message_cases (w : World) :
  match handle_message w with
  | Done _ w' =>
      mutex_locked w' = mutex_locked w
      /\ acquisitions (events w') = acquisitions (events w)
      /\ exists trigger value length,
          deliveries (events w')
          = deliveries (events w) ++ [ev_schedule_value trigger 0 value length]
          /\ List.length (inbox w)
             = (8 + List.length value + List.length (inbox w'))%nat
  | Halt h w' =>
      h = transport_failure
      /\ mutex_locked w' = mutex_locked w
      /\ deliveries (events w') = deliveries (events w)
  | OutOfFuel => False
  end.
Proof.
  unfold handle_message. run_bind.
  destruct (read_from_socket_cases (rti_socket w) 8 w) as [[Hle ->]|[_ ->]];
    [|now repeat split].
  cbv beta iota.
  destruct (extract_header (firstn (Z.to_nat 8) (inbox w))) as [[p f] l].
  match goal with
  | |- context [read_from_socket ?fd l ?v] =>
      destruct (read_from_socket_cases fd l v) as [[Hle2 ->]|[_ ->]]
  end.
  - cbv beta iota. unfold schedule_value.
    split; [now autorewrite with world|].
    split; [autorewrite with world; cbn [acquisitions]; lia|].
    eexists _, _, _. split.
    + autorewrite with world. cbn [deliveries]. rewrite !app_nil_r.
      reflexivity.
    + autorewrite with world in *.
      rewrite length_firstn, !length_skipn in *.
      change (Z.to_nat 8) with 8%nat in *. lia.
  - autorewrite with world. cbn [deliveries]. rewrite !app_nil_r.
    now repeat split.
Qed.

(** X10. Whatever is pending, [handle_message] either hands exactly one
    value to the scheduler, with delay 0, having consumed the eight header
    bytes and the value and nothing else, or it stops on a transport
    failure with nothing handed over. *)
Theorem handle_message_delivers_once_or_never (w : World) :
  match handle_message w with
  | Done _ w' =>
      exists trigger value length,
        deliveries (events w')
        = deliveries (events w) ++ [ev_schedule_value trigger 0 value length]
        /\ List.length (inbox w)
           = (8 + List.length value + List.length (inbox w'))%nat
  | Halt h w' =>
      h = transport_failure
      /\ deliveries (events w') = deliveries (events w)
  | OutOfFuel => False
  end.
Proof.
  pose proof (handle_message_cases w) as Hcases.
  destruct (handle_message w) as [[] w'|h w'|].
  - destruct Hcases as [_ [_ Hone]]. exact Hone.
  - destruct Hcases as [Hh [_ Hnone]]. now split.
  - exact Hcases.
Qed.

(** Every way [handle_timed_message] can end. *)
Lemma handle_timed_message_cases (w : World) :
  match handle_timed_message w with
  | Done _ w' =>
      mutex_locked w = false /\ mutex_locked w' = false
      /\ acquisitions (events w') = S (acquisitions (events w))
      /\ exists trigger delay value length,
          deliveries (events w')
          = deliveries (events w)
              ++ [ev_schedule_value trigger delay value length]
          /\ List.length (inbox w)
             = (16 + List.length value + List.length (inbox w'))%nat
  | Halt h w' =>
      (h = transport_failure \/ h = deadlock /\ mutex_locked w = true)
      /\ deliveries (events w') = deliveries (events w)
      /\ acquisitions (events w') = acquisitions (events w)
      /\ mutex_locked w' = mutex_locked w
  | OutOfFuel => False
  end.
Proof.
  unfold handle_timed_message. run_bind.
  destruct (read_from_socket_cases (rti_socket w) 8 w) as [[Hle ->]|[_ ->]];
    [|now repeat split; auto].
  cbv beta iota.
  destruct (extract_header (firstn (Z.to_nat 8) (inbox w))) as [[p f] l].
  match goal with
  | |- context [read_from_socket ?fd 8 ?v] =>
      destruct (read_from_socket_cases fd 8 v) as [[Hle8 ->]|[_ ->]]
  end.
  2: { autorewrite with world. cbn [deliveries acquisitions].
       rewrite !app_nil_r, Nat.add_0_r. now repeat split; auto. }
  cbv beta iota.
  match goal with
  | |- context [read_from_socket ?fd l ?v] =>
      destruct (read_from_socket_cases fd l v) as [[Hlel ->]|[_ ->]]
  end.
  2: { autorewrite with world. cbn [deliveries acquisitions].
       rewrite !app_nil_r, Nat.add_0_r. now repeat split; auto. }
  cbv beta iota. unfold pthread_mutex_lock. autorewrite with world.
  destruct (mutex_locked w) eqn:Hlock.
  - autorewrite with world. cbn [deliveries acquisitions].
    rewrite !app_nil_r, !Nat.add_0_r.
    split; [right; now split|]. now repeat split.
  - unfold get_logical_time, schedule_value, pthread_mutex_unlock.
    cbv beta iota. split; [reflexivity|]. split; [now autorewrite with world|].
    split.
    + autorewrite with world. cbn [acquisitions]. lia.
    + eexists _, _, _, _. split.
      * autorewrite with world. cbn [deliveries]. rewrite !app_nil_r.
        reflexivity.
      * autorewrite with world in *.
        rewrite !length_firstn, !length_skipn in *.
        change (Z.to_nat 8) with 8%nat in *. lia.
Qed.


(** X11. What [handle_timed_message] does is decided by what is pending.
    With fewer bytes than the eight of the header, the eight of the
    timestamp and the payload length the header gives, it stops on a
    transport failure having done nothing but reads: the mutex is never
    taken and nothing is scheduled. With all of them pending it reads
    header, timestamp and payload, and only then takes the mutex, reads
    the logical time, calls the scheduler and releases the mutex; if this
    thread already holds the mutex it stops at the acquisition, after the
    three reads and before any scheduler call. *)
Theorem handle_timed_message_outcomes (w : World) :
  let pending := inbox w in
  let hdr := firstn 8 pending in
  let tsb := firstn 8 (skipn 8 pending) in
  let port_id := fst (fst (extract_header hdr)) in
  let length := snd (extract_header hdr) in
  let payload := firstn (Z.to_nat length) (skipn 16 pending) in
  if (List.length pending <? 16 + Z.to_nat length)%nat
  then
    exists w' reads,
      handle_timed_message w = Halt transport_failure w'
      /\ events w' = events w ++ reads
      /\ Forall (fun e => exists bytes, e = ev_read (rti_socket w) bytes) reads
      /\ mutex_locked w' = mutex_locked w
  else if mutex_locked w
  then
    exists w',
      handle_timed_message w = Halt deadlock w'
      /\ events w'
         = events w
             ++ [ev_read (rti_socket w) hdr;
                 ev_read (rti_socket w) tsb;
                 ev_read (rti_socket w) payload]
      /\ mutex_locked w' = true
  else
    exists w' delay,
      handle_timed_message w = Done tt w'
      /\ events w'
         = events w
             ++ [ev_read (rti_socket w) hdr;
                 ev_read (rti_socket w) tsb;
                 ev_read (rti_socket w) payload;
                 ev_mutex_lock;
                 ev_get_logical_time;
                 ev_schedule_value (__action_for_port env port_id) delay
                   payload length;
                 ev_mutex_unlock]
      /\ mutex_locked w' = false
      /\ inbox w' = skipn (16 + Z.to_nat length) pending.
Proof.
  cbv zeta. unfold handle_timed_message. run_bind.
  change (Z.to_nat 8) with 8%nat.
  destruct (read_from_socket_cases (rti_socket w) 8 w) as [[Hle ->]|[Hlt ->]];
    change (Z.to_nat 8) with 8%nat in *.
  2: { destruct (Nat.ltb_spec (List.length (inbox w))
                   (16 + Z.to_nat (snd (extract_header (firstn 8 (inbox w))))))
         as [_|Hge]; [|lia].
       exists w, []. rewrite app_nil_r. now repeat split. }
  cbv beta iota.
  destruct (extract_header (firstn 8 (inbox w))) as [[p f] l].
  cbn [fst snd].
  match goal with
  | |- context [read_from_socket ?fd 8 ?v] =>
      destruct (read_from_socket_cases fd 8 v) as [[Hle8 ->]|[Hlt8 ->]]
  end; change (Z.to_nat 8) with 8%nat in *; autorewrite with world in *;
    rewrite ?length_skipn in *.
  2: { destruct (Nat.ltb_spec (List.length (inbox w)) (16 + Z.to_nat l))
         as [_|Hge]; [|lia].
       eexists _, [_]. split; [reflexivity|]. autorewrite with world.
       repeat split. constructor; [now eexists | constructor]. }
  cbv beta iota.
  match goal with
  | |- context [read_from_socket ?fd l ?v] =>
      destruct (read_from_socket_cases fd l v) as [[Hlel ->]|[Hltl ->]]
  end; autorewrite with world in *; rewrite ?length_skipn in *.
  2: { destruct (Nat.ltb_spec (List.length (inbox w)) (16 + Z.to_nat l))
         as [_|Hge]; [|lia].
       eexists _, [_; _]. split; [reflexivity|]. autorewrite with world.
       rewrite <- !app_assoc. repeat split.
       repeat (constructor; [now eexists|]). constructor. }
  destruct (Nat.ltb_spec (List.length (inbox w)) (16 + Z.to_nat l))
    as [Hshort|_]; [lia|].
  cbv beta iota. unfold pthread_mutex_lock. autorewrite with world.
  rewrite !skipn_skipn. cbn [Nat.add].
  destruct (mutex_locked w) eqn:Hlock.
  - eexists. split; [reflexivity|]. autorewrite with world.
    rewrite <- !app_assoc. now split.
  - unfold get_logical_time, schedule_value, pthread_mutex_unlock.
    cbv beta iota. eexists _, _. split; [reflexivity|].
    autorewrite with world. rewrite <- !app_assoc.
    split; [reflexivity|]. split; [reflexivity|].
    f_equal. lia.
Qed.


(** *** The listener loop *)

(** Every way the listener can end, for any supply of fuel. *)
Lemma listen_to_rti_cases (fuel : nat) :
  forall w,
    match listen_to_rti fuel w with
    | Done _ _ => False
    | Halt h w' =>
        mutex_locked w' = mutex_locked w
        /\ (h = transport_failure
            \/ h = error_exit ERROR_UNRECOGNIZED_MESSAGE_TYPE
            \/ h = deadlock /\ mutex_locked w = true)
    | OutOfFuel => (fuel <= List.length (inbox w))%nat
    end.
Proof.
  induction fuel as [|fuel IH]; intros w; [cbn; lia|].
  cbn [listen_to_rti]. unfold bind at 1 2, get_rti_socket.
  destruct (read_from_socket_cases (rti_socket w) 1 w) as [[Hle ->]|[_ ->]];
    [|split; [reflexivity | now left]].
  cbv beta iota zeta.
  set (w1 := step _ _).
  assert (Hlock1 : mutex_locked w1 = mutex_locked w)
    by (subst w1; now autorewrite with world).
  assert (Hlen1 : S (List.length (inbox w1)) = List.length (inbox w)).
  { subst w1. autorewrite with world. rewrite length_skipn.
    change (Z.to_nat 1) with 1%nat in *. lia. }
  destruct (_ =? MESSAGE); [|destruct (_ =? TIMED_MESSAGE)].
  - unfold bind. pose proof (handle_message_cases w1) as Hcases.
    destruct (handle_message w1) as [[] w2|h w2|]; [| |contradiction].
    + destruct Hcases as (Hlock2 & _ & _ & value & _ & _ & Hlen2).
      specialize (IH w2).
      destruct (listen_to_rti fuel w2) as [a w3|h w3|]; [exact IH| |lia].
      rewrite Hlock2, Hlock1 in IH. exact IH.
    + destruct Hcases as (-> & Hlock2 & _). split; [congruence | now left].
  - unfold bind. pose proof (handle_timed_message_cases w1) as Hcases.
    destruct (handle_timed_message w1) as [[] w2|h w2|]; [| |contradiction].
    + destruct Hcases as (Hfree & Hfreed & _ & _ & _ & value & _ & _ & Hlen2).
      specialize (IH w2).
      destruct (listen_to_rti fuel w2) as [a w3|h w3|]; [exact IH| |lia].
      rewrite Hfreed in IH. rewrite <- Hlock1, Hfree. exact IH.
    + destruct Hcases as (Hwhy & _ & _ & Hlock2).
      split; [congruence|].
      destruct Hwhy as [->|[-> Hheld]]; [now left|].
      right. right. split; [reflexivity | congruence].
  - unfold error, stop. split; [exact Hlock1 | right; now left].
Qed.

(** X12. The listener never returns: [listen_to_rti] has no way out of its
    loop but a fatal stop. With more fuel than there are bytes pending it
    does stop, so for every finite input the loop ends in a failure and
    not by running on. *)
Theorem listen_to_rti_only_stops_on_failure (fuel : nat) (w : World) :
  match listen_to_rti fuel w with
  | Done _ _ => False
  | Halt _ _ => True
  | OutOfFuel => (fuel <= List.length (inbox w))%nat
  end.
Proof.
  pose proof (listen_to_rti_cases fuel w) as Hcases.
  destruct (listen_to_rti fuel w) as [a w'|h w'|].
  - exact Hcases.
  - exact I.
  - exact Hcases.
Qed.

(** X13. When the listener stops, the mutex is as the listener found it,
    and the stop is a transport failure, an unrecognized message type, or,
    only if this thread held the mutex from the start, the second
    acquisition of a timed message. Started with the mutex free, the
    listener never stops holding it. *)
Theorem listen_to_rti_leaves_mutex (fuel : nat) (w w' : World) (h : halt) :
  listen_to_rti fuel w = Halt h w' ->
  mutex_locked w' = mutex_locked w
  /\ (h = transport_failure
      \/ h = error_exit ERROR_UNRECOGNIZED_MESSAGE_TYPE
      \/ h = deadlock /\ mutex_locked w = true).
Proof.
  intros Hrun. pose proof (listen_to_rti_cases fuel w) as Hcases.
  rewrite Hrun in Hcases. exact Hcases.
Qed.


(** X14. Fed a run of whole messages, plain and timed in any mix, and then
    the end of the input, the listener hands every payload to the
    scheduler, once, in the order of arrival, each for the action of the
    port its own header names, and stops on the transport failure only
    after the last one. *)
Theorem listen_to_rti_delivers_in_order (frames : list incoming) :
  forall (w : World) (fuel : nat),
    MESSAGE <> TIMED_MESSAGE ->
    mutex_locked w = false ->
    Forall whole frames ->
    inbox w = flat_map incoming_bytes frames ->
    (List.length frames < fuel)%nat ->
    exists w',
      listen_to_rti fuel w = Halt transport_failure w'
      /\ receipts (events w') = receipts (events w) ++ map receipt_of frames
      /\ inbox w' = [].
Proof.
  induction frames as [|fr frames IH]; intros w fuel Htags Hfree Hwhole Hin Hfuel;
    (destruct fuel as [|fuel]; [cbn in Hfuel; lia|]).
  - cbn [listen_to_rti]. unfold bind at 1 2, get_rti_socket, read_from_socket.
    rewrite Hin. cbn. exists w. now rewrite app_nil_r.
  - inversion Hwhole as [|fr' frames' Hfr Hrest]; subst.
    cbn [flat_map] in Hin. cbn [List.length] in Hfuel.
    destruct fr as [hdr payload|hdr tsb payload];
      cbn [incoming_bytes whole receipt_of] in *;
      destruct (extract_header hdr) as [[port_id federate_id] len] eqn:Hhdr;
      cbn [fst snd] in *.
    + destruct Hfr as [Hlen Hpay].
      rewrite (listen_to_rti_tag _ MESSAGE
                 ((hdr ++ payload) ++ flat_map incoming_bytes frames) w)
        by exact Hin.
      rewrite Z.eqb_refl. unfold bind.
      rewrite (handle_message_ready _ hdr payload
                 (flat_map incoming_bytes frames) port_id federate_id len)
        by (autorewrite with world; auto using app_assoc; now rewrite app_assoc).
      match goal with
      | |- context [listen_to_rti fuel ?v] =>
          destruct (IH v fuel) as [w' [Hrun [Hrec Hempty]]];
          [exact Htags | now autorewrite with world | exact Hrest
          | now autorewrite with world | lia |]
      end.
      exists w'. split; [exact Hrun|]. split; [|exact Hempty].
      rewrite Hrec. autorewrite with world.
      cbn [receipts map receipt_of]. rewrite Hhdr. cbn [fst snd].
      rewrite !app_nil_r, <- !app_assoc. reflexivity.
    + destruct Hfr as [Hlen [Hlen8 Hpay]].
      rewrite (listen_to_rti_tag _ TIMED_MESSAGE
                 ((hdr ++ tsb ++ payload) ++ flat_map incoming_bytes frames) w)
        by exact Hin.
      replace (TIMED_MESSAGE =? MESSAGE) with false
        by (symmetry; apply Z.eqb_neq; congruence).
      rewrite Z.eqb_refl. unfold bind.
      rewrite (handle_timed_message_ready _ hdr tsb payload
                 (flat_map incoming_bytes frames) port_id federate_id len)
        by (autorewrite with world; auto; now rewrite <- !app_assoc).
      match goal with
      | |- context [listen_to_rti fuel ?v] =>
          destruct (IH v fuel) as [w' [Hrun [Hrec Hempty]]];
          [exact Htags | now autorewrite with world | exact Hrest
          | now autorewrite with world | lia |]
      end.
      exists w'. split; [exact Hrun|]. split; [|exact Hempty].
      rewrite Hrec. autorewrite with world.
      cbn [receipts map receipt_of]. rewrite Hhdr. cbn [fst snd].
      rewrite !app_nil_r, <- !app_assoc. reflexivity.
Qed.


(** *** The senders and the listener together *)

Lemma plain_header_fields port federate length :
  extract_header [port; 0; federate; 0; length; 0; 0; 0]
  = (port, federate, length).
Proof.
  unfold extract_header. cbn [firstn skipn le_value].
  f_equal; [f_equal|]; lia.
Qed.

(** X7. What [send_via_rti] sends reads back as the port, federate and
    length it was given exactly when all three are below 256: the plain
    sender is right for one-byte values and for no others. *)
Theorem send_via_rti_roundtrip_iff_small (port federate length : Z) :
  0 <= port < 65536 -> 0 <= federate < 65536 -> 0 <= length < 2 ^ 32 ->
  extract_header (tl (send_via_rti_buffer port federate length))
  = (port, federate, length)
  <-> port < 256 /\ federate < 256 /\ length < 256.
Proof.
  intros Hp Hf Hl. rewrite send_via_rti_buffer_bytes. cbn [tl].
  rewrite plain_header_fields. split.
  - intros Heq. injection Heq as Hp' Hf' Hl'.
    pose proof (Z.mod_pos_bound port 256).
    pose proof (Z.mod_pos_bound federate 256).
    pose proof (Z.mod_pos_bound length 256). lia.
  - intros (Hp' & Hf' & Hl'). now rewrite !Z.mod_small by lia.
Qed.

(** X8. A plain message with port, federate and payload length below 256:
    the bytes the sender writes, given to the listener of another
    federate, make it hand the same payload to the action of the same
    port, with delay 0, before the input ends. *)
Theorem send_via_rti_reaches_listener
  (w r : World) (port federate : Z) (payload : list Z) (fuel : nat) :
  is_uchar MESSAGE ->
  (forall i n, 0 <= sys_write env i n) ->
  0 <= port < 256 -> 0 <= federate < 256 ->
  Z.of_nat (List.length payload) < 256 ->
  inbox r
  = send_via_rti_buffer port federate (Z.of_nat (List.length payload))
      ++ payload ->
  (exists w',
      send_via_rti port federate (Z.of_nat (List.length payload)) payload w
      = Done tt w'
      /\ written (events w') = written (events w) ++ inbox r)
  /\ exists r',
      listen_to_rti (S (S fuel)) r = Halt transport_failure r'
      /\ deliveries (events r')
         = deliveries (events r)
             ++ [ev_schedule_value (__action_for_port env port) 0 payload
                   (Z.of_nat (List.length payload))].
Proof.
  intros Htag Hok Hp Hf Hl Hin. split.
  - eexists. split; [apply send_via_rti_ok; [lia | lia | exact Hok]|].
    autorewrite with world. cbn [written]. rewrite !app_nil_r.
    rewrite Nat2Z.id, firstn_all, Hin. now rewrite <- app_assoc.
  - rewrite send_via_rti_buffer_bytes, (to_uchar_id _ Htag) in Hin.
    rewrite !Z.mod_small in Hin by lia. cbn [app] in Hin.
    rewrite (listen_to_rti_tag _ _ _ _ Hin). rewrite Z.eqb_refl.
    unfold bind at 1.
    rewrite (handle_message_ready _
               [port; 0; federate; 0; Z.of_nat (List.length payload); 0; 0; 0]
               payload [] port federate (Z.of_nat (List.length payload)))
      by (autorewrite with world;
          first [reflexivity | apply plain_header_fields
                | now rewrite app_nil_r]).
    cbn [listen_to_rti]. unfold bind at 1 2, get_rti_socket, read_from_socket.
    autorewrite with world. cbn [Z.to_nat Pos.to_nat Pos.iter_op Nat.leb
                                   List.length].
    eexists. split; [reflexivity|].
    autorewrite with world. cbn [deliveries]. now rewrite !app_nil_r.
Qed.

Lemma current_time_step_free e v :
  mutex_locked v = false ->
  current_time (step e v) = current_time v + engine_advance env (S (now v)).
Proof.
  intros Hfree. unfold step, preempt. cbn [mutex_locked record].
  rewrite Hfree. cbn. rewrite length_app. cbn [List.length].
  unfold now. now rewrite Nat.add_1_r.
Qed.

Lemma current_time_set_inbox bs v : current_time (set_inbox bs v) = current_time v.
Proof. reflexivity. Qed.

(** X9. A timed message with 16-bit port and federate and a payload
    shorter than 2^32: the bytes the sender writes at its logical time,
    given to the listener of another federate, make it hand the same
    payload to the action of the same port, with the sender's logical
    time less the receiver's own (read under the mutex) as the delay. *)
Theorem send_via_rti_timed_reaches_listener
  (w r : World) (port federate t : Z) (payload : list Z) (fuel : nat) :
  is_uchar TIMED_MESSAGE ->
  TIMED_MESSAGE <> MESSAGE ->
  (forall i n, 0 <= sys_write env i n) ->
  0 <= port < 65536 -> 0 <= federate < 65536 ->
  Z.of_nat (List.length payload) < 2 ^ 32 ->
  is_ll (current_time w) ->
  mutex_locked r = false ->
  inbox r
  = send_via_rti_timed_buffer port federate (Z.of_nat (List.length payload))
      (current_time w) ++ payload ->
  clock_after 4 (now r) (current_time r) = t ->
  is_ll (current_time w - t) ->
  (exists w',
      send_via_rti_timed port federate (Z.of_nat (List.length payload))
        payload w
      = Done tt w'
      /\ written (events w') = written (events w) ++ inbox r)
  /\ exists r',
      listen_to_rti (S (S fuel)) r = Halt transport_failure r'
      /\ deliveries (events r')
         = deliveries (events r)
             ++ [ev_schedule_value (__action_for_port env port)
                   (current_time w - t) payload
                   (Z.of_nat (List.length payload))].
Proof.
  intros Htag Htags Hok Hp Hf Hl Hnow Hfree Hin Ht Hfit. split.
  - eexists. split; [apply send_via_rti_timed_ok; [lia | lia | exact Hok]|].
    autorewrite with world. cbn [written]. rewrite !app_nil_r.
    rewrite Nat2Z.id, firstn_all, Hin. now rewrite <- app_assoc.
  - unfold send_via_rti_timed_buffer in Hin.
    rewrite (to_uchar_id _ Htag) in Hin. cbn [app] in Hin.
    rewrite (listen_to_rti_tag _ _ _ _ Hin).
    replace (TIMED_MESSAGE =? MESSAGE) with false
      by (symmetry; now apply Z.eqb_neq).
    rewrite Z.eqb_refl. unfold bind at 1.
    rewrite (handle_timed_message_ready _
               (encode_ushort port ++ encode_ushort federate
                  ++ encode_int (Z.of_nat (List.length payload)))
               (encode_ll (current_time w)) payload []
               port federate (Z.of_nat (List.length payload))).
    + cbn [listen_to_rti].
      unfold bind at 1 2, get_rti_socket, read_from_socket.
      autorewrite with world. cbn [Z.to_nat Pos.to_nat Pos.iter_op Nat.leb
                                     List.length].
      eexists. split; [reflexivity|].
      autorewrite with world. cbn [deliveries]. rewrite !app_nil_r.
      repeat f_equal.
      rewrite <- (app_nil_r (encode_ll (current_time w))),
        (extract_ll_encode_ll _ _ Hnow).
      rewrite <- (to_ll_id _ Hfit). f_equal. f_equal. rewrite <- Ht.
      rewrite !current_time_step_free by (now autorewrite with world).
      autorewrite with world. rewrite !current_time_set_inbox.
      rewrite current_time_step_free by (now autorewrite with world).
      autorewrite with world. rewrite !current_time_set_inbox.
      rewrite current_time_step_free by (now autorewrite with world).
      autorewrite with world. rewrite !current_time_set_inbox.
      rewrite current_time_step_free by (now autorewrite with world).
      autorewrite with world. reflexivity.
    + now autorewrite with world.
    + reflexivity.
    + reflexivity.
    + rewrite <- (app_nil_r (encode_int _)).
      apply extract_header_encode; lia.
    + reflexivity.
    + autorewrite with world. now rewrite <- !app_assoc, app_nil_r.
Qed.


(** *** Connecting *)

Lemma le_bytes_value4 bs :
  List.length bs = 4%nat -> Forall is_uchar bs -> le_bytes 4 (le_value bs) = bs.
Proof. intros Hlen Hbs. rewrite <- Hlen. apply le_bytes_value, Hbs. Qed.

Lemma native_bytes_swapped_int v :
  native_bytes 4 (swap_bytes_if_big_endian_int v) = encode_int v.
Proof.
  unfold native_bytes, swap_bytes_if_big_endian_int, encode_int.
  destruct (host_big_endian env); [|reflexivity].
  rewrite le_bytes_signed32, le_bytes_value4.
  - apply rev_involutive.
  - now rewrite length_rev, le_bytes_length.
  - apply Forall_rev, le_bytes_uchar.
Qed.

(** The loop when the RTI refuses [k] connections and accepts the next,
    with retries to spare. *)
Lemma connect_to_rti_loop_connects hostname port (k : nat) :
  forall (fuel : nat) (count_retries : Z) (w : World),
    (forall i, 0 <= sys_socket env i) ->
    (forall i, sys_gethostbyname env i = true) ->
    (forall j, (j < k)%nat -> sys_connect env (now w + 5 * j + 2) < 0) ->
    0 <= sys_connect env (now w + 5 * k + 2) ->
    0 <= count_retries ->
    count_retries + Z.of_nat k <= CONNECT_NUM_RETRIES < INT_MAX ->
    (k < fuel)%nat ->
    exists w',
      connect_to_rti_loop fuel hostname port count_retries w = Done tt w'
      /\ activities (events w')
         = activities (events w) ++ attempt :: retries k CONNECT_RETRY_INTERVAL
      /\ written (events w') = written (events w)
      /\ rti_socket w' = sys_socket env (now w + 5 * k)
      /\ now w' = (now w + 5 * k + 3)%nat.
Proof.
  induction k as [|k IH];
    intros fuel c w Hsock Hhost Hfail Hacc Hc Hsum Hfuel;
    (destruct fuel as [|fuel]; [lia|]);
    cbn [connect_to_rti_loop];
    unfold bind, socket, gethostbyname, connect, get_rti_socket, ret;
    cbv beta iota zeta;
    (replace (sys_socket env (now w) <? 0) with false
      by (symmetry; apply Z.ltb_ge, Hsock));
    cbv beta iota; rewrite Hhost; cbn [negb]; cbv beta iota;
    autorewrite with world.
  - replace (now w + 5 * 0 + 2)%nat with (S (S (now w))) in Hacc by lia.
    replace (sys_connect env (S (S (now w))) <? 0) with false
      by (symmetry; now apply Z.ltb_ge).
    eexists. split; [reflexivity|]. autorewrite with world.
    cbn [activities written retries]. rewrite !app_nil_r.
    replace (now w + 5 * 0)%nat with (now w) by lia.
    repeat split; try reflexivity. lia.
  - pose proof (Hfail 0%nat ltac:(lia)) as Hfirst.
    replace (now w + 5 * 0 + 2)%nat with (S (S (now w))) in Hfirst by lia.
    replace (sys_connect env (S (S (now w))) <? 0) with true
      by (symmetry; now apply Z.ltb_lt).
    cbv beta iota.
    rewrite to_int_id by (unfold INT_MAX in *; lia).
    rewrite Z.gtb_ltb.
    destruct (Z.ltb_spec CONNECT_NUM_RETRIES (c + 1)) as [Hlt|_]; [lia|].
    unfold printf, nanosleep. cbv beta iota zeta.
    match goal with
    | |- context [if ?b then _ else _] => destruct b
    end;
      (match goal with
       | |- context [connect_to_rti_loop fuel hostname port (c + 1) ?v] =>
           assert (Hnow5 : now v = (now w + 5)%nat)
             by (autorewrite with world; lia);
           destruct (IH fuel (c + 1) v) as (w' & Hrun & Hact & Hwr & Hfd & Hnow');
           [exact Hsock | exact Hhost
           | intros j Hj; rewrite Hnow5;
             replace (now w + 5 + 5 * j + 2)%nat
               with (now w + 5 * S j + 2)%nat by lia;
             apply Hfail; lia
           | rewrite Hnow5;
             replace (now w + 5 + 5 * k + 2)%nat
               with (now w + 5 * S k + 2)%nat by lia;
             exact Hacc
           | lia | lia | lia |];
           rewrite Hnow5 in Hfd, Hnow'
       end;
       exists w'; split; [exact Hrun|];
       rewrite Hact, Hwr, Hfd, Hnow'; autorewrite with world;
       cbn [activities written retries]; rewrite !app_nil_r;
       repeat split;
       [ now rewrite <- !app_assoc | f_equal; lia | lia ]).
Qed.

(** X1. When the RTI refuses [k] connections and accepts the next one,
    with [k] no more than CONNECT_NUM_RETRIES, [connect_to_rti] makes
    [k + 1] attempts with a wait of CONNECT_RETRY_INTERVAL before each
    retry, leaves the descriptor of the last socket in [rti_socket], and
    registers: it writes the FED_ID marker and the four bytes of the
    federate's id, least significant first, on a host of either byte
    order. *)
Theorem connect_to_rti_registers
  (k fuel : nat) (id : Z) (hostname : string) (port : Z) (w : World) :
  (forall i, 0 <= sys_socket env i) ->
  (forall i, sys_gethostbyname env i = true) ->
  (forall j, (j < k)%nat -> sys_connect env (now w + 5 * j + 2) < 0) ->
  0 <= sys_connect env (now w + 5 * k + 2) ->
  Z.of_nat k <= CONNECT_NUM_RETRIES < INT_MAX ->
  (forall i n, 0 <= n -> sys_write env i n = n) ->
  (k < fuel)%nat ->
  exists w',
    connect_to_rti fuel id hostname port w = Done tt w'
    /\ activities (events w')
       = activities (events w) ++ attempt :: retries k CONNECT_RETRY_INTERVAL
    /\ written (events w')
       = written (events w) ++ to_uchar FED_ID :: encode_int id
    /\ rti_socket w' = sys_socket env (now w + 5 * k).
Proof.
  intros Hsock Hhost Hfail Hacc Hfit Hok Hfuel.
  destruct (connect_to_rti_loop_connects hostname port k fuel 0 w
              Hsock Hhost Hfail Hacc)
    as (w1 & Hrun & Hact & Hwr & Hfd & _); [lia | lia | exact Hfuel |].
  unfold connect_to_rti, bind at 1. rewrite Hrun.
  unfold bind, printf, get_rti_socket, write, ret. cbv beta iota zeta.
  rewrite Hok by lia. change (1 <? 0) with false. cbv beta iota.
  rewrite Hok by lia. change (4 <? 0) with false. cbv beta iota.
  rewrite native_bytes_swapped_int.
  change (firstn (Z.to_nat (Z.min 1 1)) [to_uchar FED_ID])
    with [to_uchar FED_ID].
  change (firstn (Z.to_nat (Z.min 4 4)) (encode_int id)) with (encode_int id).
  eexists. split; [reflexivity|].
  autorewrite with world. cbn [activities written].
  rewrite Hact, Hwr, Hfd, !app_nil_r. repeat split.
  now rewrite <- app_assoc.
Qed.


(** X2. A host name that does not resolve is not retried: the first
    failed lookup ends [connect_to_rti] with exit status 1, after the
    socket is made and before any connection is attempted or any wait. *)
Theorem connect_to_rti_unknown_host
  (fuel : nat) (id : Z) (hostname : string) (port : Z) (w : World) :
  0 <= sys_socket env (now w) ->
  sys_gethostbyname env (S (now w)) = false ->
  (0 < fuel)%nat ->
  exists w',
    connect_to_rti fuel id hostname port w = Halt (exit_status 1) w'
    /\ events w'
       = events w
           ++ [ev_socket (sys_socket env (now w));
               ev_gethostbyname hostname false;
               ev_fprintf_stderr "ERROR, no such host for RTI.\n"]
    /\ activities (events w') = activities (events w).
Proof.
  intros Hsock Hhost Hfuel. destruct fuel as [|fuel]; [lia|].
  unfold connect_to_rti. cbn [connect_to_rti_loop].
  unfold bind, socket, gethostbyname, get_rti_socket, ret.
  cbv beta iota zeta.
  replace (sys_socket env (now w) <? 0) with false
    by (symmetry; now apply Z.ltb_ge).
  cbv beta iota. autorewrite with world. rewrite Hhost. cbn [negb].
  unfold fprintf_stderr, exit, stop. eexists. split; [reflexivity|].
  autorewrite with world. cbn [activities]. rewrite !app_nil_r.
  split; [now rewrite <- !app_assoc | reflexivity].
Qed.

(** X3. When no socket can be made, [connect_to_rti] stops at once on the
    socket error, with the failed descriptor already stored in
    [rti_socket] and nothing else done. *)
Theorem connect_to_rti_no_socket
  (fuel : nat) (id : Z) (hostname : string) (port : Z) (w : World) :
  sys_socket env (now w) < 0 ->
  (0 < fuel)%nat ->
  exists w',
    connect_to_rti fuel id hostname port w
    = Halt (error_exit "ERROR on federate creating socket to RTI") w'
    /\ events w' = events w ++ [ev_socket (sys_socket env (now w))]
    /\ rti_socket w' = sys_socket env (now w).
Proof.
  intros Hsock Hfuel. destruct fuel as [|fuel]; [lia|].
  unfold connect_to_rti. cbn [connect_to_rti_loop].
  unfold bind, socket, get_rti_socket, ret. cbv beta iota zeta.
  replace (sys_socket env (now w) <? 0) with true
    by (symmetry; now apply Z.ltb_lt).
  unfold error, stop. eexists. split; [reflexivity|].
  now autorewrite with world.
Qed.

(** *** The handshake when the connection misbehaves *)

(** X4. The handshake notices a write only when it fails outright. If the
    two writes report any non-negative counts, however short, it goes on
    to read the reply and returns the start time, with only that much of
    the marker and of the physical time on the connection. *)
Theorem get_start_time_from_rti_ignores_short_writes
  (w : World) (my_physical_time start_time : Z) (rest : list Z) :
  is_uchar TIMESTAMP ->
  0 <= sys_write env (now w) 1 ->
  0 <= sys_write env (S (now w)) 8 ->
  is_ll start_time ->
  inbox w = (TIMESTAMP :: encode_ll start_time) ++ rest ->
  exists w',
    get_start_time_from_rti my_physical_time w = Done start_time w'
    /\ written (events w')
       = written (events w)
           ++ firstn (Z.to_nat (Z.min (sys_write env (now w) 1) 1)) [TIMESTAMP]
           ++ firstn (Z.to_nat (Z.min (sys_write env (S (now w)) 8) 8))
                (encode_ll my_physical_time).
Proof.
  intros Htag Hw1 Hw2 Hstart Hin.
  unfold get_start_time_from_rti. run_bind. unfold write. cbv beta iota zeta.
  rewrite (to_uchar_id _ Htag), native_bytes_swapped_ll.
  replace (sys_write env (now w) 1 <? 0) with false
    by (symmetry; now apply Z.ltb_ge).
  cbv beta iota. autorewrite with world.
  replace (sys_write env (S (now w)) 8 <? 0) with false
    by (symmetry; now apply Z.ltb_ge).
  cbv beta iota. autorewrite with world.
  change 9 with (Z.of_nat (List.length (TIMESTAMP :: encode_ll start_time))).
  rewrite (read_from_socket_ready _ (TIMESTAMP :: encode_ll start_time) rest)
    by (now autorewrite with world).
  cbv beta iota. cbn [nth]. rewrite Z.eqb_refl. cbv beta iota.
  change (firstn 8 (skipn 1 (TIMESTAMP :: encode_ll start_time)))
    with (encode_ll start_time).
  rewrite swapped_native_value_ll
    by (unfold encode_ll; first [apply le_bytes_length | apply le_bytes_uchar]).
  replace (to_ll (le_value (encode_ll start_time))) with start_time
    by (symmetry; apply signed64_roundtrip, Hstart).
  unfold printf. eexists. split; [reflexivity|].
  autorewrite with world. cbn [written]. rewrite !app_nil_r.
  now rewrite <- !app_assoc.
Qed.

(** X5. If either write of the handshake fails, the handshake stops on
    its error before it reads: the reply, if any, stays unread. *)
Theorem get_start_time_from_rti_write_failure
  (w : World) (my_physical_time : Z) :
  sys_write env (now w) 1 < 0
  \/ 0 <= sys_write env (now w) 1 /\ sys_write env (S (now w)) 8 < 0 ->
  exists msg w',
    get_start_time_from_rti my_physical_time w = Halt (error_exit msg) w'
    /\ inbox w' = inbox w
    /\ written (events w')
       = written (events w)
           ++ (if sys_write env (now w) 1 <? 0 then []
               else firstn (Z.to_nat (Z.min (sys_write env (now w) 1) 1))
                      [to_uchar TIMESTAMP]).
Proof.
  intros Hfail.
  unfold get_start_time_from_rti. run_bind. unfold write. cbv beta iota zeta.
  destruct (Z.ltb_spec (sys_write env (now w) 1) 0) as [Hneg|Hpos].
  - unfold error, stop. eexists _, _. split; [reflexivity|].
    autorewrite with world. cbn [written]. now rewrite !app_nil_r.
  - destruct Hfail as [Hbad|[_ Hbad]]; [lia|].
    cbv beta iota. autorewrite with world.
    replace (sys_write env (S (now w)) 8 <? 0) with true
      by (symmetry; now apply Z.ltb_lt).
    unfold error, stop. eexists _, _. split; [reflexivity|].
    autorewrite with world. cbn [written]. now rewrite !app_nil_r.
Qed.

(** X6. The tag of the reply is looked at only once nine bytes have been
    read: with fewer than nine bytes pending the handshake stops on a
    transport failure whatever the first byte is, and returns no start
    time. *)
Theorem get_start_time_from_rti_short_reply
  (w : World) (my_physical_time : Z) :
  (forall i n, 0 <= sys_write env i n) ->
  (List.length (inbox w) < 9)%nat ->
  exists w',
    get_start_time_from_rti my_physical_time w = Halt transport_failure w'
    /\ inbox w' = inbox w.
Proof.
  intros Hok Hshort.
  assert (Hnn : forall i n, (sys_write env i n <? 0) = false).
  { intros i n. apply Z.ltb_ge, Hok. }
  unfold get_start_time_from_rti. run_bind. unfold write. cbv beta iota zeta.
  rewrite Hnn. cbv beta iota. rewrite Hnn. cbv beta iota.
  autorewrite with world.
  match goal with
  | |- context [read_from_socket ?fd 9 ?v] =>
      destruct (read_from_socket_cases fd 9 v) as [[Hle _]|[_ ->]]
  end.
  - autorewrite with world in Hle. change (Z.to_nat 9) with 9%nat in Hle. lia.
  - eexists. split; [reflexivity|]. now autorewrite with world.
Qed.


(** *** The listener up to a bad tag *)

(** The listener works through a run of whole messages and then goes on
    as it would from the world they leave behind. *)
Lemma listen_to_rti_through (frames : list incoming) :
  forall (w : World) (tail : list Z),
    MESSAGE <> TIMED_MESSAGE ->
    mutex_locked w = false ->
    Forall whole frames ->
    inbox w = flat_map incoming_bytes frames ++ tail ->
    exists w1,
      mutex_locked w1 = false
      /\ inbox w1 = tail
      /\ rti_socket w1 = rti_socket w
      /\ receipts (events w1) = receipts (events w) ++ map receipt_of frames
      /\ forall fuel,
          listen_to_rti (List.length frames + fuel) w = listen_to_rti fuel w1.
Proof.
  induction frames as [|fr frames IH]; intros w tail Htags Hfree Hwhole Hin.
  - exists w. cbn. rewrite app_nil_r. now repeat split.
  - inversion Hwhole as [|fr' frames' Hfr Hrest]; subst.
    cbn [flat_map] in Hin. rewrite <- app_assoc in Hin.
    destruct fr as [hdr payload|hdr tsb payload];
      cbn [incoming_bytes whole] in *;
      destruct (extract_header hdr) as [[port_id federate_id] len] eqn:Hhdr;
      cbn [fst snd] in *.
    + destruct Hfr as [Hlen Hpay]. cbn [app] in Hin.
      rewrite <- app_assoc in Hin.
      pose proof (handle_message_ready
                    (step (ev_read (rti_socket w) [MESSAGE])
                       (set_inbox
                          (hdr ++ payload ++ flat_map incoming_bytes frames
                             ++ tail) w))
                    hdr payload (flat_map incoming_bytes frames ++ tail)
                    port_id federate_id len Hlen Hhdr Hpay
                    ltac:(now autorewrite with world)) as Hhandle.
      match type of Hhandle with
      | _ = Done tt ?v =>
          destruct (IH v tail) as (w1 & Hfree1 & Hin1 & Hfd1 & Hrec1 & Hgo);
          [exact Htags | now autorewrite with world | exact Hrest
          | now autorewrite with world |]
      end.
      exists w1. split; [exact Hfree1|]. split; [exact Hin1|].
      split; [rewrite Hfd1; now autorewrite with world|]. split.
      * rewrite Hrec1. autorewrite with world.
        cbn [receipts map receipt_of]. rewrite Hhdr. cbn [fst snd].
        rewrite !app_nil_r, <- !app_assoc. reflexivity.
      * intros fuel. cbn [List.length Nat.add].
        rewrite (listen_to_rti_tag _ _ _ _ Hin). rewrite Z.eqb_refl.
        unfold bind at 1. rewrite Hhandle. apply Hgo.
    + destruct Hfr as [Hlen [Hlen8 Hpay]]. cbn [app] in Hin.
      rewrite <- !app_assoc in Hin.
      pose proof (handle_timed_message_ready
                    (step (ev_read (rti_socket w) [TIMED_MESSAGE])
                       (set_inbox
                          (hdr ++ tsb ++ payload
                             ++ flat_map incoming_bytes frames ++ tail) w))
                    hdr tsb payload (flat_map incoming_bytes frames ++ tail)
                    port_id federate_id len
                    ltac:(now autorewrite with world) Hlen Hlen8 Hhdr Hpay
                    ltac:(now autorewrite with world)) as Hhandle.
      cbv zeta in Hhandle.
      match type of Hhandle with
      | _ = Done tt ?v =>
          destruct (IH v tail) as (w1 & Hfree1 & Hin1 & Hfd1 & Hrec1 & Hgo);
          [exact Htags | now autorewrite with world | exact Hrest
          | now autorewrite with world |]
      end.
      exists w1. split; [exact Hfree1|]. split; [exact Hin1|].
      split; [rewrite Hfd1; now autorewrite with world|]. split.
      * rewrite Hrec1. autorewrite with world.
        cbn [receipts map receipt_of]. rewrite Hhdr. cbn [fst snd].
        rewrite !app_nil_r, <- !app_assoc. reflexivity.
      * intros fuel. cbn [List.length Nat.add].
        rewrite (listen_to_rti_tag _ _ _ _ Hin).
        replace (TIMED_MESSAGE =? MESSAGE) with false
          by (symmetry; apply Z.eqb_neq; congruence).
        rewrite Z.eqb_refl. unfold bind at 1. rewrite Hhandle. apply Hgo.
Qed.

(** X15. An unrecognized tag stops the listener only when its turn comes:
    every whole message before it has been handed to the scheduler, in
    order, and what follows the tag is never read. *)
Theorem listen_to_rti_stops_at_bad_tag
  (frames : list incoming) (w : World) (tag : Z) (rest : list Z)
  (fuel : nat) :
  MESSAGE <> TIMED_MESSAGE ->
  tag <> MESSAGE -> tag <> TIMED_MESSAGE ->
  mutex_locked w = false ->
  Forall whole frames ->
  inbox w = flat_map incoming_bytes frames ++ tag :: rest ->
  exists w',
    listen_to_rti (List.length frames + S fuel) w
    = Halt (error_exit ERROR_UNRECOGNIZED_MESSAGE_TYPE) w'
    /\ receipts (events w') = receipts (events w) ++ map receipt_of frames
    /\ inbox w' = rest.
Proof.
  intros Htags Htag Htimed Hfree Hwhole Hin.
  destruct (listen_to_rti_through frames w (tag :: rest)
              Htags Hfree Hwhole Hin)
    as (w1 & _ & Hin1 & _ & Hrec1 & Hgo).
  rewrite Hgo. rewrite (listen_to_rti_tag _ _ _ _ Hin1).
  apply Z.eqb_neq in Htag, Htimed. rewrite Htag, Htimed.
  unfold error, stop. eexists. split; [reflexivity|].
  autorewrite with world. cbn [receipts]. rewrite app_nil_r.
  split; [exact Hrec1 | reflexivity].
Qed.

End Federate.

(** ** The properties on the sample federate

    The tags are taken as FED_ID = 1, TIMESTAMP = 2, MESSAGE = 3 and
    TIMED_MESSAGE = 4. *)

Lemma sample_writes_succeed big_endian :
  forall i n, 0 <= sys_write (sample_env big_endian) i n.
Proof. intros i n. cbn. lia. Defined.

Lemma sample_writes_complete big_endian :
  forall i n, 0 <= n -> sys_write (sample_env big_endian) i n = n.
Proof. intros i n Hn. cbn. lia. Defined.

(** Port 65536 is refused by both senders before anything is written. *)
Lemma send_rejects_wide_address_witness :
  (65536 <= 65536 \/ 65536 <= 7)
  /\ exists expr,
      send_via_rti 3 (sample_env false) 65536 7 2 [0x41; 0x42]
        (sample_world 100 [])
      = Halt (assertion_failure expr) (sample_world 100 [])
      /\ send_via_rti_timed 4 (sample_env false) 65536 7 2 [0x41; 0x42]
           (sample_world 100 [])
         = Halt (assertion_failure expr) (sample_world 100 []).
Proof.
  split; [left; lia|].
  apply (send_rejects_wide_address 3 4 (sample_env false) 65536 7 2
           [0x41; 0x42] (sample_world 100 [])).
  left. lia.
Defined.

(** The plain message of the scenario, sent by one federate and received
    by another. *)
Lemma plain_message_scenario_witness :
  (is_uchar 3
   /\ inbox (sample_world 0 [3; 3; 0; 7; 0; 2; 0; 0; 0; 0x41; 0x42])
      = [3; 3; 0; 7; 0; 2; 0; 0; 0; 0x41; 0x42])
  /\ (exists w',
         send_via_rti 3 (sample_env false) 3 7 2 [0x41; 0x42]
           (sample_world 0 [])
         = Done tt w'
         /\ written (events w') = [3; 3; 0; 7; 0; 2; 0; 0; 0; 0x41; 0x42])
  /\ extract_header [3; 0; 7; 0; 2; 0; 0; 0] = (3, 7, 2)
  /\ (exists r',
         listen_to_rti 3 4 (sample_env false) 2
           (sample_world 0 [3; 3; 0; 7; 0; 2; 0; 0; 0; 0x41; 0x42])
         = Halt transport_failure r'
         /\ events r'
            = [ev_read 3 [3]; ev_read 3 [3; 0; 7; 0; 2; 0; 0; 0];
               ev_read 3 [0x41; 0x42];
               ev_schedule_value 4099 0 [0x41; 0x42] 2]).
Proof.
  assert (Htag : is_uchar 3) by (unfold is_uchar; lia).
  split; [split; [exact Htag | reflexivity]|].
  exact (plain_message_scenario 3 4 (sample_env false) (sample_world 0 [])
           (sample_world 0 [3; 3; 0; 7; 0; 2; 0; 0; 0; 0x41; 0x42]) 0
           Htag (sample_writes_succeed false) eq_refl).
Defined.

(** A plain message for port 3 reaches the action of port 3 with delay 0. *)
Lemma handle_message_zero_delay_witness :
  (List.length [3; 0; 7; 0; 2; 0; 0; 0] = 8%nat
   /\ extract_header [3; 0; 7; 0; 2; 0; 0; 0] = (3, 7, 2)
   /\ 2 = Z.of_nat (List.length [0x41; 0x42]))
  /\ exists w',
      handle_message (sample_env false)
        (sample_world 100 [3; 0; 7; 0; 2; 0; 0; 0; 0x41; 0x42; 4])
      = Done tt w'
      /\ events w'
         = [ev_read 3 [3; 0; 7; 0; 2; 0; 0; 0]; ev_read 3 [0x41; 0x42];
            ev_schedule_value 4099 0 [0x41; 0x42] 2]
      /\ inbox w' = [4].
Proof.
  split; [repeat split|].
  exact (handle_message_zero_delay (sample_env false)
           (sample_world 100 [3; 0; 7; 0; 2; 0; 0; 0; 0x41; 0x42; 4])
           [3; 0; 7; 0; 2; 0; 0; 0] [0x41; 0x42] [4] 3 7 2
           eq_refl eq_refl eq_refl eq_refl).
Defined.

(** A timed message sent at logical time 100 carries the timestamp 100. *)
Lemma send_via_rti_timed_stamps_logical_time_witness :
  (3 < 65536 /\ 7 < 65536 /\ is_ll (current_time (sample_world 100 [])))
  /\ exists w' header,
      send_via_rti_timed 4 (sample_env false) 3 7 2 [0x41; 0x42]
        (sample_world 100 [])
      = Done tt w'
      /\ written (events w') = header ++ [0x41; 0x42]
      /\ List.length header = 17%nat
      /\ skipn 9 header = encode_ll 100
      /\ extract_ll (skipn 9 header) = 100.
Proof.
  assert (Hnow : is_ll (current_time (sample_world 100 [])))
    by (unfold is_ll, LLONG_MIN, LLONG_MAX; cbn; lia).
  split; [repeat split; try lia; apply Hnow|].
  exact (send_via_rti_timed_stamps_logical_time 4 (sample_env false) 3 7 2
           [0x41; 0x42] (sample_world 100 [])
           ltac:(lia) ltac:(lia) (sample_writes_succeed false) Hnow).
Defined.

(** The timed message of the scenario: the other thread moves the clock
    from 70 to 100 while the message is read; the message, stamped 150, is
    scheduled with delay 50 at logical time 100. *)
Lemma handle_timed_message_delay_witness :
  (extract_header [5; 0; 1; 0; 2; 0; 0; 0] = (5, 1, 2)
   /\ extract_ll (encode_ll 150) = 150
   /\ clock_after (sample_env false) 3 0 70 = 100
   /\ is_ll (150 - 100))
  /\ exists w',
      handle_timed_message (sample_env false)
        (sample_world 70
           ([5; 0; 1; 0; 2; 0; 0; 0] ++ encode_ll 150 ++ [0x41; 0x42]))
      = Done tt w'
      /\ trace w'
         = [(70, ev_read 3 [5; 0; 1; 0; 2; 0; 0; 0]);
            (80, ev_read 3 (encode_ll 150));
            (90, ev_read 3 [0x41; 0x42]);
            (100, ev_mutex_lock);
            (100, ev_get_logical_time);
            (100, ev_schedule_value 4101 50 [0x41; 0x42] 2);
            (100, ev_mutex_unlock)]
      /\ mutex_locked w' = false.
Proof.
  assert (Hfit : is_ll (150 - 100))
    by (unfold is_ll, LLONG_MIN, LLONG_MAX; lia).
  split; [repeat split; try reflexivity; apply Hfit|].
  exact (handle_timed_message_delay (sample_env false)
           (sample_world 70
              ([5; 0; 1; 0; 2; 0; 0; 0] ++ encode_ll 150 ++ [0x41; 0x42]))
           [5; 0; 1; 0; 2; 0; 0; 0] (encode_ll 150) [0x41; 0x42] []
           5 1 2 150 100
           eq_refl eq_refl eq_refl eq_refl eq_refl eq_refl eq_refl eq_refl
           Hfit).
Defined.

(** A plain message cut short after its header, a whole plain message
    and a whole timed message, all for port 5: the first stops with no
    acquisition, the second is read and scheduled with no acquisition, the
    third is scheduled under the mutex. *)
Lemma mutex_taken_only_for_timed_messages_witness :
  (mutex_locked (sample_world 70 [5; 0; 1; 0; 2; 0; 0; 0; 9]) = false
   /\ extract_header [5; 0; 1; 0; 2; 0; 0; 0] = (5, 1, 2))
  /\ match
       handle_message (sample_env false)
         (sample_world 70 [5; 0; 1; 0; 2; 0; 0; 0; 9])
     with
     | Done _ u' | Halt _ u' =>
         acquisitions (events u') = 0%nat /\ mutex_locked u' = false
     | OutOfFuel => False
     end
  /\ (exists w',
         handle_message (sample_env false)
           (sample_world 70 ([5; 0; 1; 0; 2; 0; 0; 0] ++ [0x41; 0x42] ++ []))
         = Done tt w'
         /\ events w'
            = [ev_read 3 [5; 0; 1; 0; 2; 0; 0; 0];
               ev_read 3 [0x41; 0x42];
               ev_schedule_value 4101 0 [0x41; 0x42] 2]
         /\ acquisitions (events w') = 0%nat
         /\ mutex_locked w' = false)
  /\ exists v',
      handle_timed_message (sample_env false)
        (sample_world 70
           ([5; 0; 1; 0; 2; 0; 0; 0] ++ encode_ll 150 ++ [0x41; 0x42]))
      = Done tt v'
      /\ events v'
         = [ev_read 3 [5; 0; 1; 0; 2; 0; 0; 0];
            ev_read 3 (encode_ll 150);
            ev_read 3 [0x41; 0x42];
            ev_mutex_lock;
            ev_get_logical_time;
            ev_schedule_value 4101 50 [0x41; 0x42] 2;
            ev_mutex_unlock]
      /\ acquisitions (events v') = 1%nat.
Proof.
  split; [split; reflexivity|].
  exact (mutex_taken_only_for_timed_messages (sample_env false)
           (sample_world 70 [5; 0; 1; 0; 2; 0; 0; 0; 9])
           (sample_world 70 ([5; 0; 1; 0; 2; 0; 0; 0] ++ [0x41; 0x42] ++ []))
           (sample_world 70
              ([5; 0; 1; 0; 2; 0; 0; 0] ++ encode_ll 150 ++ [0x41; 0x42]))
           [5; 0; 1; 0; 2; 0; 0; 0] (encode_ll 150) [0x41; 0x42] []
           5 1 2
           eq_refl eq_refl eq_refl eq_refl eq_refl eq_refl eq_refl eq_refl
           eq_refl).
Defined.

(** The handshake of the scenario on a big-endian host: physical time 1000
    goes out, start time 1200 comes back. *)
Lemma get_start_time_from_rti_returns_reply_witness :
  (is_uchar 2 /\ is_ll 1200)
  /\ exists w',
      get_start_time_from_rti 2 (sample_env true) 1000
        (sample_world 0 ((2 :: encode_ll 1200) ++ [3]))
      = Done 1200 w'
      /\ events w'
         = [ev_write 3 [2];
            ev_write 3 [232; 3; 0; 0; 0; 0; 0; 0];
            ev_read 3 [2; 176; 4; 0; 0; 0; 0; 0; 0];
            ev_printf "Federate: starting timestamp is: %lld\n"]
      /\ inbox w' = [3].
Proof.
  assert (Htag : is_uchar 2) by (unfold is_uchar; lia).
  assert (Hstart : is_ll 1200) by (unfold is_ll, LLONG_MIN, LLONG_MAX; lia).
  split; [split; assumption|].
  exact (get_start_time_from_rti_returns_reply 2 (sample_env true)
           (sample_world 0 ((2 :: encode_ll 1200) ++ [3])) 1000 1200 [3]
           Htag (sample_writes_complete true) Hstart eq_refl).
Defined.

(** A MESSAGE frame in answer to the handshake, and the tag 9 in the
    listener. *)
Lemma unexpected_tag_is_fatal_witness :
  (3 <> 2 /\ 9 <> 3 /\ 9 <> 4)
  /\ (exists w',
         get_start_time_from_rti 2 (sample_env false) 1000
           (sample_world 0 [3; 5; 0; 1; 0; 0; 0; 0; 0])
         = Halt (exit_status 1) w'
         /\ deliveries (events w') = [])
  /\ (exists v',
         listen_to_rti 3 4 (sample_env false) 1
           (sample_world 100 [9; 3; 5; 0; 1; 0; 0; 0; 0; 0])
         = Halt (error_exit ERROR_UNRECOGNIZED_MESSAGE_TYPE) v'
         /\ events v' = [ev_read 3 [9]]
         /\ inbox v' = [3; 5; 0; 1; 0; 0; 0; 0; 0]).
Proof.
  split; [repeat split; lia|].
  exact (unexpected_tag_is_fatal 3 4 2 (sample_env false)
           (sample_world 0 [3; 5; 0; 1; 0; 0; 0; 0; 0])
           (sample_world 100 [9; 3; 5; 0; 1; 0; 0; 0; 0; 0])
           1000 3 9 [5; 0; 1; 0; 0; 0; 0; 0] [] [3; 5; 0; 1; 0; 0; 0; 0; 0] 0
           (sample_writes_succeed false) ltac:(lia) eq_refl eq_refl
           ltac:(lia) ltac:(lia) eq_refl).
Defined.

(** Two retries at five seconds: three attempts, two waits between them
    (the second one interrupted), then exit status 2. *)
Lemma connect_to_rti_retry_bound_witness :
  ((forall i, 0 <= sys_socket (sample_env false) i)
   /\ (forall i, sys_connect (sample_env false) i < 0)
   /\ 0 <= 2 < INT_MAX
   /\ (Z.to_nat 2 < 3)%nat)
  /\ exists w',
      connect_to_rti 1 2 5 (sample_env false) 3 7 "localhost" 15045
        (sample_world 0 [])
      = Halt (exit_status 2) w'
      /\ activities (events w')
         = [attempt; wait 5; attempt; wait 5; attempt]
      /\ written (events w') = [].
Proof.
  assert (Hsock : forall i, 0 <= sys_socket (sample_env false) i)
    by (intros i; cbn; lia).
  assert (Hrefused : forall i, sys_connect (sample_env false) i < 0)
    by (intros i; cbn; lia).
  assert (Hfit : 0 <= 2 < INT_MAX) by (unfold INT_MAX; lia).
  assert (Hfuel : (Z.to_nat 2 < 3)%nat) by (cbn; lia).
  split; [repeat split; solve [apply Hsock | apply Hrefused | apply Hfit | apply Hfuel]|].
  exact (connect_to_rti_retry_bound 1 2 5 (sample_env false) 3 7 "localhost"
           15045 (sample_world 0 [])
           Hsock (fun _ => eq_refl) Hrefused Hfit Hfuel).
Defined.

(** ** The further properties on the sample federate *)

(** Two refusals, then a connection at position 12 of the history, on a
    big-endian host: three attempts, two waits, and the registration of
    federate 7. *)
Lemma connect_to_rti_registers_witness :
  ((forall j, (j < 2)%nat ->
              sys_connect (accepting_env true 12)
                (now (sample_world 0 []) + 5 * j + 2) < 0)
   /\ 0 <= sys_connect (accepting_env true 12)
             (now (sample_world 0 []) + 5 * 2 + 2)
   /\ Z.of_nat 2 <= 2 < INT_MAX)
  /\ exists w',
      connect_to_rti 1 2 5 (accepting_env true 12) 3 7 "localhost" 15045
        (sample_world 0 [])
      = Done tt w'
      /\ activities (events w') = [attempt; wait 5; attempt; wait 5; attempt]
      /\ written (events w') = [1; 7; 0; 0; 0]
      /\ rti_socket w' = 3.
Proof.
  assert (Hfail : forall j, (j < 2)%nat ->
                    sys_connect (accepting_env true 12)
                      (now (sample_world 0 []) + 5 * j + 2) < 0).
  { intros j Hj. destruct j as [|[|j]]; [cbn; lia | cbn; lia | lia]. }
  assert (Hacc : 0 <= sys_connect (accepting_env true 12)
                        (now (sample_world 0 []) + 5 * 2 + 2))
    by (cbn; lia).
  assert (Hfit : Z.of_nat 2 <= 2 < INT_MAX) by (unfold INT_MAX; lia).
  split; [repeat split; solve [exact Hfail | exact Hacc | apply Hfit]|].
  exact (connect_to_rti_registers 1 2 5 (accepting_env true 12) 2 3 7
           "localhost" 15045 (sample_world 0 [])
           (fun i => ltac:(cbn; lia)) (fun _ => eq_refl) Hfail Hacc Hfit
           (fun i n Hn => ltac:(cbn; lia)) ltac:(lia)).
Defined.

(** A host name that does not resolve. *)
Lemma connect_to_rti_unknown_host_witness :
  (0 <= sys_socket (troubled_env (fun _ => 3) (fun _ => false)
                      (fun _ n => n)) 0
   /\ sys_gethostbyname (troubled_env (fun _ => 3) (fun _ => false)
                           (fun _ n => n)) 1 = false)
  /\ exists w',
      connect_to_rti 1 2 5
        (troubled_env (fun _ => 3) (fun _ => false) (fun _ n => n))
        3 7 "nowhere" 15045 (sample_world 0 [])
      = Halt (exit_status 1) w'
      /\ events w'
         = [ev_socket 3; ev_gethostbyname "nowhere" false;
            ev_fprintf_stderr "ERROR, no such host for RTI.\n"]
      /\ activities (events w') = [].
Proof.
  split; [split; [cbn; lia | reflexivity]|].
  exact (connect_to_rti_unknown_host 1 2 5
           (troubled_env (fun _ => 3) (fun _ => false) (fun _ n => n))
           3 7 "nowhere" 15045 (sample_world 0 [])
           ltac:(cbn; lia) eq_refl ltac:(lia)).
Defined.

(** No socket to be had. *)
Lemma connect_to_rti_no_socket_witness :
  sys_socket (troubled_env (fun _ => -1) (fun _ => true) (fun _ n => n)) 0 < 0
  /\ exists w',
      connect_to_rti 1 2 5
        (troubled_env (fun _ => -1) (fun _ => true) (fun _ n => n))
        3 7 "localhost" 15045 (sample_world 0 [])
      = Halt (error_exit "ERROR on federate creating socket to RTI") w'
      /\ events w' = [ev_socket (-1)]
      /\ rti_socket w' = -1.
Proof.
  split; [cbn; lia|].
  exact (connect_to_rti_no_socket 1 2 5
           (troubled_env (fun _ => -1) (fun _ => true) (fun _ n => n))
           3 7 "localhost" 15045 (sample_world 0 [])
           ltac:(cbn; lia) ltac:(lia)).
Defined.

(** Writes that take no byte at all: the handshake still returns 1200,
    with nothing on the connection. *)
Lemma get_start_time_from_rti_ignores_short_writes_witness :
  (is_uchar 2 /\ is_ll 1200
   /\ 0 <= sys_write (troubled_env (fun _ => 3) (fun _ => true)
                        (fun _ _ => 0)) 0 1)
  /\ exists w',
      get_start_time_from_rti 2
        (troubled_env (fun _ => 3) (fun _ => true) (fun _ _ => 0)) 1000
        (sample_world 0 ((2 :: le_bytes 8 1200) ++ []))
      = Done 1200 w'
      /\ written (events w') = [].
Proof.
  assert (Htag : is_uchar 2) by (unfold is_uchar; lia).
  assert (Hstart : is_ll 1200) by (unfold is_ll, LLONG_MIN, LLONG_MAX; lia).
  split; [repeat split; try apply Htag; try apply Hstart; cbn; lia|].
  exact (get_start_time_from_rti_ignores_short_writes 2
           (troubled_env (fun _ => 3) (fun _ => true) (fun _ _ => 0))
           (sample_world 0 ((2 :: le_bytes 8 1200) ++ [])) 1000 1200 []
           Htag ltac:(cbn; lia) ltac:(cbn; lia) Hstart eq_refl).
Defined.

(** A first write that fails: the reply stays unread. *)
Lemma get_start_time_from_rti_write_failure_witness :
  sys_write (troubled_env (fun _ => 3) (fun _ => true) (fun _ _ => -1)) 0 1 < 0
  /\ exists msg w',
      get_start_time_from_rti 2
        (troubled_env (fun _ => 3) (fun _ => true) (fun _ _ => -1)) 1000
        (sample_world 0 (2 :: le_bytes 8 1200))
      = Halt (error_exit msg) w'
      /\ inbox w' = 2 :: le_bytes 8 1200
      /\ written (events w') = [].
Proof.
  assert (Hfail : sys_write (troubled_env (fun _ => 3) (fun _ => true)
                               (fun _ _ => -1)) 0 1 < 0) by (cbn; lia).
  split; [exact Hfail|].
  exact (get_start_time_from_rti_write_failure 2
           (troubled_env (fun _ => 3) (fun _ => true) (fun _ _ => -1))
           (sample_world 0 (2 :: le_bytes 8 1200)) 1000
           (or_introl Hfail)).
Defined.

(** Three bytes of a reply, the tag among them. *)
Lemma get_start_time_from_rti_short_reply_witness :
  Nat.lt (List.length (inbox (sample_world 0 [2; 176; 4]))) 9
  /\ exists w',
      get_start_time_from_rti 2 (sample_env false) 1000
        (sample_world 0 [2; 176; 4])
      = Halt transport_failure w'
      /\ inbox w' = [2; 176; 4].
Proof.
  split; [cbn; lia|].
  exact (get_start_time_from_rti_short_reply 2 (sample_env false)
           (sample_world 0 [2; 176; 4]) 1000
           (sample_writes_succeed false) ltac:(cbn; lia)).
Defined.

(** Port 300 does not survive the plain sender. *)
Lemma send_via_rti_roundtrip_iff_small_witness :
  (0 <= 300 < 65536 /\ 0 <= 7 < 65536 /\ 0 <= 2 < 2 ^ 32)
  /\ (extract_header (tl (send_via_rti_buffer 3 300 7 2)) = (300, 7, 2)
      <-> 300 < 256 /\ 7 < 256 /\ 2 < 256).
Proof.
  split; [lia|].
  exact (send_via_rti_roundtrip_iff_small 3 300 7 2
           ltac:(lia) ltac:(lia) ltac:(lia)).
Defined.

(** A plain message for port 5 from one federate to the listener of
    another. *)
Lemma send_via_rti_reaches_listener_witness :
  (is_uchar 3 /\ 0 <= 5 < 256 /\ 0 <= 1 < 256
   /\ Z.of_nat (List.length [0x41; 0x42]) < 256)
  /\ (exists w',
         send_via_rti 3 (sample_env false) 5 1 2 [0x41; 0x42]
           (sample_world 100 [])
         = Done tt w'
         /\ written (events w') = [3; 5; 0; 1; 0; 2; 0; 0; 0; 0x41; 0x42])
  /\ exists r',
      listen_to_rti 3 4 (sample_env false) 2
        (sample_world 0 [3; 5; 0; 1; 0; 2; 0; 0; 0; 0x41; 0x42])
      = Halt transport_failure r'
      /\ deliveries (events r')
         = [ev_schedule_value 4101 0 [0x41; 0x42] 2].
Proof.
  assert (Htag : is_uchar 3) by (unfold is_uchar; lia).
  split; [repeat split; try apply Htag; cbn; lia|].
  exact (send_via_rti_reaches_listener 3 4 (sample_env false)
           (sample_world 100 [])
           (sample_world 0 [3; 5; 0; 1; 0; 2; 0; 0; 0; 0x41; 0x42])
           5 1 [0x41; 0x42] 0
           Htag (sample_writes_succeed false) ltac:(lia) ltac:(lia)
           ltac:(cbn; lia) eq_refl).
Defined.

(** A timed message for port 300, sent at logical time 150 and received
    by a listener whose clock reaches 100 when it takes the mutex. *)
Lemma send_via_rti_timed_reaches_listener_witness :
  (is_uchar 4 /\ 4 <> 3 /\ 0 <= 300 < 65536
   /\ clock_after (sample_env false) 4 0 60 = 100
   /\ is_ll (150 - 100))
  /\ (exists w',
         send_via_rti_timed 4 (sample_env false) 300 2 2 [0x41; 0x42]
           (sample_world 150 [])
         = Done tt w'
         /\ written (events w')
            = [4; 44; 1; 2; 0; 2; 0; 0; 0; 150; 0; 0; 0; 0; 0; 0; 0;
               0x41; 0x42])
  /\ exists r',
      listen_to_rti 3 4 (sample_env false) 2
        (sample_world 60
           [4; 44; 1; 2; 0; 2; 0; 0; 0; 150; 0; 0; 0; 0; 0; 0; 0;
            0x41; 0x42])
      = Halt transport_failure r'
      /\ deliveries (events r')
         = [ev_schedule_value 4396 50 [0x41; 0x42] 2].
Proof.
  assert (Htag : is_uchar 4) by (unfold is_uchar; lia).
  assert (Htags : 4 <> 3) by lia.
  assert (Hnow : is_ll (current_time (sample_world 150 [])))
    by (unfold is_ll, LLONG_MIN, LLONG_MAX; cbn; lia).
  assert (Hfit : is_ll (150 - 100))
    by (unfold is_ll, LLONG_MIN, LLONG_MAX; lia).
  split; [repeat split; try lia; try reflexivity; apply Hfit|].
  exact (send_via_rti_timed_reaches_listener 3 4 (sample_env false)
           (sample_world 150 [])
           (sample_world 60
              [4; 44; 1; 2; 0; 2; 0; 0; 0; 150; 0; 0; 0; 0; 0; 0; 0;
               0x41; 0x42])
           300 2 100 [0x41; 0x42] 0
           Htag Htags (sample_writes_succeed false) ltac:(lia) ltac:(lia)
           ltac:(cbn; lia) Hnow eq_refl eq_refl eq_refl Hfit).
Defined.

(** The listener stopped by the tag 9, the mutex free before and after. *)
Lemma listen_to_rti_leaves_mutex_witness :
  listen_to_rti 3 4 (sample_env false) 1 (sample_world 0 [9; 1])
  = Halt (error_exit ERROR_UNRECOGNIZED_MESSAGE_TYPE)
      (mkWorld 3 10 false [1] [(0, ev_read 3 [9])])
  /\ mutex_locked (mkWorld 3 10 false [1] [(0, ev_read 3 [9])])
     = mutex_locked (sample_world 0 [9; 1])
  /\ (error_exit ERROR_UNRECOGNIZED_MESSAGE_TYPE = transport_failure
      \/ error_exit ERROR_UNRECOGNIZED_MESSAGE_TYPE
         = error_exit ERROR_UNRECOGNIZED_MESSAGE_TYPE
      \/ error_exit ERROR_UNRECOGNIZED_MESSAGE_TYPE = deadlock
         /\ mutex_locked (sample_world 0 [9; 1]) = true).
Proof.
  split; [reflexivity|].
  exact (listen_to_rti_leaves_mutex 3 4 (sample_env false) 1
           (sample_world 0 [9; 1])
           (mkWorld 3 10 false [1] [(0, ev_read 3 [9])])
           (error_exit ERROR_UNRECOGNIZED_MESSAGE_TYPE) eq_refl).
Defined.

(** A plain message for port 5 and a timed one for port 6, one after the
    other. *)
Lemma listen_to_rti_delivers_in_order_witness :
  (3 <> 4
   /\ Forall whole
        [plain_in [5; 0; 1; 0; 1; 0; 0; 0] [9];
         timed_in [6; 0; 1; 0; 2; 0; 0; 0] (le_bytes 8 150) [0x41; 0x42]])
  /\ exists w',
      listen_to_rti 3 4 (sample_env false) 3
        (sample_world 0
           (flat_map (incoming_bytes 3 4)
              [plain_in [5; 0; 1; 0; 1; 0; 0; 0] [9];
               timed_in [6; 0; 1; 0; 2; 0; 0; 0] (le_bytes 8 150)
                 [0x41; 0x42]]))
      = Halt transport_failure w'
      /\ receipts (events w') = [(4101, [9], 1); (4102, [0x41; 0x42], 2)]
      /\ inbox w' = [].
Proof.
  assert (Htags : 3 <> 4) by lia.
  assert (Hwhole :
            Forall whole
              [plain_in [5; 0; 1; 0; 1; 0; 0; 0] [9];
               timed_in [6; 0; 1; 0; 2; 0; 0; 0] (le_bytes 8 150)
                 [0x41; 0x42]]).
  { repeat constructor. }
  split; [split; [exact Htags | exact Hwhole]|].
  exact (listen_to_rti_delivers_in_order 3 4 (sample_env false)
           [plain_in [5; 0; 1; 0; 1; 0; 0; 0] [9];
            timed_in [6; 0; 1; 0; 2; 0; 0; 0] (le_bytes 8 150) [0x41; 0x42]]
           (sample_world 0
              (flat_map (incoming_bytes 3 4)
                 [plain_in [5; 0; 1; 0; 1; 0; 0; 0] [9];
                  timed_in [6; 0; 1; 0; 2; 0; 0; 0] (le_bytes 8 150)
                    [0x41; 0x42]]))
           3 Htags eq_refl Hwhole eq_refl ltac:(cbn; lia)).
Defined.

(** A plain message for port 5, then the tag 9 and two more bytes. *)
Lemma listen_to_rti_stops_at_bad_tag_witness :
  (3 <> 4 /\ 9 <> 3 /\ 9 <> 4
   /\ Forall whole [plain_in [5; 0; 1; 0; 1; 0; 0; 0] [9]])
  /\ exists w',
      listen_to_rti 3 4 (sample_env false) 2
        (sample_world 0 [3; 5; 0; 1; 0; 1; 0; 0; 0; 9; 9; 1; 2])
      = Halt (error_exit ERROR_UNRECOGNIZED_MESSAGE_TYPE) w'
      /\ receipts (events w') = [(4101, [9], 1)]
      /\ inbox w' = [1; 2].
Proof.
  assert (Hwhole : Forall whole [plain_in [5; 0; 1; 0; 1; 0; 0; 0] [9]]).
  { repeat constructor. }
  split; [repeat split; try lia; exact Hwhole|].
  exact (listen_to_rti_stops_at_bad_tag 3 4 (sample_env false)
           [plain_in [5; 0; 1; 0; 1; 0; 0; 0] [9]]
           (sample_world 0 [3; 5; 0; 1; 0; 1; 0; 0; 0; 9; 9; 1; 2])
           9 [1; 2] 0
           ltac:(lia) ltac:(lia) ltac:(lia) eq_refl Hwhole eq_refl).
Defined.

(** A timed message cut short in its timestamp: the header is read, the
    mutex is never taken, nothing is scheduled. *)
Lemma handle_timed_message_outcomes_witness :
  exists w' reads,
    handle_timed_message (sample_env false)
      (sample_world 70 [5; 0; 1; 0; 2; 0; 0; 0; 150; 0; 0])
    = Halt transport_failure w'
    /\ events w' = reads
    /\ Forall (fun e => exists bytes, e = ev_read 3 bytes) reads
    /\ mutex_locked w' = false.
Proof.
  exact (handle_timed_message_outcomes (sample_env false)
           (sample_world 70 [5; 0; 1; 0; 2; 0; 0; 0; 150; 0; 0])).
Defined.
